(** * Admin panel back end: groups, students, payments, expenses, dashboard

    A shallow embedding of the Express route handlers (routes/auth,
    routes/groups, routes/students, routes/payments, routes/expenses,
    routes/dashboard) together with the statements that relate them to
    the specification.

    Modelling decisions, in one place.

    - Request bodies are JS objects; they are finite maps from field names
      to text.  A field that is absent is [undefined].  Scalars are
      identified with the text the driver sends to the store for them,
      except in the login handlers, where the kind of the password
      decides what the hash library does and bodies are maps to JSON
      scalars.
    - An id reaches the store as text and is read there as an [integer]:
      blanks around the numeral are skipped, and a numeral out of range
      makes the statement fail.  The validator's [isInt()] is a different
      test: it accepts numerals of any length and no blanks.
    - A table is the list of its rows, in insertion order.  Nothing is
      assumed about keys being unique; every statement holds for
      arbitrary table contents.
    - Every handler is a function from the store to a response and a new
      store.  The [catch] branch of a handler is the 500 response.
    - The wall clock, the validator library, the password hash, the token
      signer and the arithmetic on amounts live outside the repository;
      they are parameters (type classes), instantiated once for the
      worked examples.
    - The relational store itself is outside the sources as well; its
      statements are read as the list functions they denote, after the
      store has typed them: a statement it cannot type fails as a whole. *)

From stdpp Require Import base decidable option list gmap strings sorting pretty.
From Stdlib Require Import Ascii QArith Qround Qabs Lqa.

Local Open Scope string_scope.
Local Open Scope Z_scope.

(** ** Text *)

Module Text.

Definition is_digit (a : ascii) : bool :=
  let n := nat_of_ascii a in (48 <=? n)%nat && (n <=? 57)%nat.

Definition digit_val (a : ascii) : Z := Z.of_nat (nat_of_ascii a) - 48.

Fixpoint all_digits (s : string) : bool :=
  match s with
  | EmptyString => true
  | String a s' => is_digit a && all_digits s'
  end.

Fixpoint digits_val (acc : Z) (s : string) : Z :=
  match s with
  | EmptyString => acc
  | String a s' => digits_val (10 * acc + digit_val a) s'
  end.

(** A numeral: an optional sign and at least one decimal digit. *)
Definition signed_digits (s : string) : option Z :=
  let unsigned (t : string) :=
    match t with
    | EmptyString => None
    | _ => if all_digits t then Some (digits_val 0 t) else None
    end in
  match s with
  | EmptyString => None
  | String a t =>
      if Ascii.eqb a "-" then Z.opp <$> unsigned t
      else if Ascii.eqb a "+" then unsigned t
      else unsigned s
  end.

(** The blanks the store skips around a number: space, tab, line feed,
    vertical tab, form feed, carriage return. *)
Definition is_blank (a : ascii) : bool :=
  let n := nat_of_ascii a in ((9 <=? n)%nat && (n <=? 13)%nat) || (n =? 32)%nat.

Fixpoint skip_blanks (s : string) : string :=
  match s with
  | String a s' => if is_blank a then skip_blanks s' else s
  | EmptyString => EmptyString
  end.

Fixpoint all_blank (s : string) : bool :=
  match s with
  | EmptyString => true
  | String a s' => is_blank a && all_blank s'
  end.

(** The longest prefix of digits, and what follows it. *)
Fixpoint span_digits (s : string) : string * string :=
  match s with
  | String a s' =>
      if is_digit a then let '(d, r) := span_digits s' in (String a d, r)
      else (EmptyString, s)
  | EmptyString => (EmptyString, EmptyString)
  end.

Definition int4_min : Z := - 2147483648.
Definition int4_max : Z := 2147483647.

(** Integer input of the store for a text parameter compared with or
    written to an [integer] column (ids and references to them): blanks,
    an optional sign, at least one decimal digit, blanks; [None] where
    the store raises (anything else in the text, or a value outside the
    range of the type). *)
Definition int_in (s : string) : option Z :=
  let t := skip_blanks s in
  let '(negative, u) :=
    match t with
    | String a t' =>
        if Ascii.eqb a "-" then (true, t')
        else if Ascii.eqb a "+" then (false, t')
        else (false, t)
    | EmptyString => (false, t)
    end in
  let '(d, r) := span_digits u in
  match d with
  | EmptyString => None
  | _ =>
      let v := if negative then - digits_val 0 d else digits_val 0 d in
      if all_blank r && (int4_min <=? v) && (v <=? int4_max) then Some v else None
  end.

(** [str.slice(0, n)]. *)
Definition slice0 (n : nat) (s : string) : string := String.substring 0 n s.

(** [String(i).padStart(2, '0')]. *)
Definition padStart2 (i : nat) : string :=
  let s := pretty i in
  if (String.length s <? 2)%nat then "0" +:+ s else s.

(** [/^\d{4}-\d{2}$/]. *)
Definition matches_yyyy_mm (s : string) : bool :=
  match s with
  | String a (String b (String c (String d (String "-" (String e (String f EmptyString)))))) =>
      is_digit a && is_digit b && is_digit c && is_digit d && is_digit e && is_digit f
  | _ => false
  end.

(** SQL [LIKE] with the wildcards [%] and [_] and the escape [\]. *)
Fixpoint like (pat : list ascii) : list ascii → bool :=
  match pat with
  | [] => λ s, match s with [] => true | _ => false end
  | "%"%char :: pat' =>
      fix skip (s : list ascii) : bool :=
        like pat' s || match s with [] => false | _ :: s' => skip s' end
  | "_"%char :: pat' =>
      λ s, match s with [] => false | _ :: s' => like pat' s' end
  | "\"%char :: c :: pat' =>
      λ s, match s with
           | [] => false
           | a :: s' => bool_decide (a = c) && like pat' s'
           end
  | c :: pat' =>
      λ s, match s with
           | [] => false
           | a :: s' => bool_decide (a = c) && like pat' s'
           end
  end.

Definition sql_like (s pat : string) : bool :=
  like (String.list_ascii_of_string pat) (String.list_ascii_of_string s).

End Text.

(** ** Requests and responses *)

(** [req.body], [req.query]. *)
Abbreviation body := (gmap string string).

(** The text a validator sees for a field: [undefined] reads as the
    empty text. *)
Definition field (b : body) (k : string) : string := default "" (b !! k).

(** [x || null] on a destructured field. *)
Definition or_null (o : option string) : option string :=
  match o with
  | Some "" | None => None
  | Some s => Some s
  end.

(** [x || d]. *)
Definition or_default (o : option string) (d : string) : string :=
  default d (or_null o).

Record verror := VError { param : string; msg : string }.

Inductive payload (A : Type) : Type :=
| Data (message : option string) (data : A)
| Message (success : bool) (message : string)
| Errors (errors : list verror).
Arguments Data {A} message data.
Arguments Message {A} success message.
Arguments Errors {A} errors.

Record response (A : Type) := Response { status : nat; json : payload A }.
Arguments Response {A} status json.
Arguments status {A} r.
Arguments json {A} r.

Definition server_error {A} : response A := Response 500 (Message false "Server error").
Definition not_found {A} (what : string) : response A :=
  Response 404 (Message false (what +:+ " not found")).
Definition bad_request {A} (errors : list verror) : response A :=
  Response 400 (Errors errors).

(** ** The validator library *)

Class Validators := {
  (** sanitizer [trim()] *)
  trim : string → string;
  (** [isFloat({ min: 0 })] *)
  isFloat_min0 : string → bool;
  (** [isISO8601()] *)
  isISO8601 : string → bool;
}.

(** [isInt()] of the validator library, [/^[-+]?[0-9]+$/]: a numeral of
    any length, with no blank around it. *)
Definition isInt (s : string) : bool := bool_decide (is_Some (Text.signed_digits s)).

(** [notEmpty()]. *)
Definition notEmpty (s : string) : bool := negb (String.eqb s "").

(** [isIn(values)]. *)
Definition isIn (values : list string) (s : string) : bool := bool_decide (s ∈ values).

(** One link of a validation chain, [body(f).trim()?.check().withMessage(m)]. *)
Record rule := Rule {
  rule_field : string;
  rule_sanitize : option (string → string);
  rule_check : string → bool;
  rule_msg : string;
}.

(** Sanitizers write their result back into the request. *)
Definition sanitize (r : rule) (b : body) : body :=
  match rule_sanitize r with
  | Some f => <[rule_field r := f (field b (rule_field r))]> b
  | None => b
  end.

Fixpoint run_rules (rules : list rule) (b : body) : body * list verror :=
  match rules with
  | [] => (b, [])
  | r :: rules' =>
      let b1 := sanitize r b in
      let '(b2, errs) := run_rules rules' b1 in
      (b2, if rule_check r (field b1 (rule_field r)) then errs
           else VError (rule_field r) (rule_msg r) :: errs)
  end.

(** ** The store *)

Record admin := Admin {
  a_id : Z; a_username : string; a_password : string; a_email : string }.

Record group := Group {
  g_id : Z; g_name : string; g_teacher_name : option string;
  g_monthly_fee : string; g_created_at : string; g_updated_at : string }.

Record student := Student {
  s_id : Z; s_group_id : option Z; s_full_name : string;
  s_phone_number : option string; s_parent_phone : option string;
  s_join_date : string; s_payment_status : string;
  s_created_at : string; s_updated_at : string }.

Record payment := Payment {
  p_id : Z; p_student_id : Z; p_group_id : option Z; p_amount : string;
  p_payment_month : string; p_payment_date : string;
  p_payment_method : string; p_notes : option string; p_created_at : string }.

Record expense := Expense {
  e_id : Z; e_title : string; e_amount : string; e_category : option string;
  e_expense_date : string; e_expense_month : string;
  e_notes : option string; e_created_at : string }.

#[global] Instance admin_eq_dec : EqDecision admin.
Proof. solve_decision. Defined.
#[global] Instance group_eq_dec : EqDecision group.
Proof. solve_decision. Defined.
#[global] Instance student_eq_dec : EqDecision student.
Proof. solve_decision. Defined.
#[global] Instance payment_eq_dec : EqDecision payment.
Proof. solve_decision. Defined.
#[global] Instance expense_eq_dec : EqDecision expense.
Proof. solve_decision. Defined.

(** The tables and the sequences that number new rows. *)
Record store := Store {
  admins : list admin;
  groups : list group;
  students : list student;
  payments : list payment;
  expenses : list expense;
  students_seq : Z;
  payments_seq : Z;
  expenses_seq : Z;
}.

(** [new Date()] of the process and [CURRENT_TIMESTAMP] of the store. *)
Record clock := Clock {
  toISOString : string;   (** [new Date().toISOString()] *)
  getFullYear : string;   (** [new Date().getFullYear()], as interpolated *)
  current_timestamp : string;
}.

Definition with_students (db : store) (l : list student) (seq : Z) : store :=
  Store (admins db) (groups db) l (payments db) (expenses db)
        seq (payments_seq db) (expenses_seq db).
Definition with_groups (db : store) (l : list group) : store :=
  Store (admins db) l (students db) (payments db) (expenses db)
        (students_seq db) (payments_seq db) (expenses_seq db).
Definition with_payments (db : store) (l : list payment) (seq : Z) : store :=
  Store (admins db) (groups db) (students db) l (expenses db)
        (students_seq db) seq (expenses_seq db).
Definition with_expenses (db : store) (l : list expense) (seq : Z) : store :=
  Store (admins db) (groups db) (students db) (payments db) l
        (students_seq db) (payments_seq db) seq.

(** [UPDATE students SET payment_status = $1, updated_at = CURRENT_TIMESTAMP
    WHERE id = $2]. *)
Definition set_payment_status (st ts : string) (id : Z) (s : student) : student :=
  if decide (s_id s = id)
  then Student (s_id s) (s_group_id s) (s_full_name s) (s_phone_number s)
               (s_parent_phone s) (s_join_date s) st (s_created_at s) ts
  else s.

(** ** routes/payments *)

Section Payments.
Context `{Validators}.

Definition payment_rules : list rule :=
  [ Rule "student_id" None isInt "Valid student ID is required";
    Rule "amount" None isFloat_min0 "Amount must be a positive number";
    Rule "payment_month" None Text.matches_yyyy_mm
         "Payment month must be in YYYY-MM format";
    Rule "payment_date" None isISO8601 "Valid payment date is required";
    Rule "payment_method" None (isIn ["cash"; "card"; "transfer"])
         "Invalid payment method" ].

(** POST /api/payments *)
Definition post_payments (c : clock) (req_body : body) (db : store)
  : response payment * store :=
  let '(b, errors) := run_rules payment_rules req_body in
  match errors with
  | _ :: _ => (bad_request errors, db)
  | [] =>
      match Text.int_in (field b "student_id") with
      | None => (server_error, db)
      | Some student_id =>
          let studentResult := filter (λ s, s_id s = student_id) (students db) in
          match studentResult with
          | [] => (not_found "Student", db)
          | row :: _ =>
              let group_id := s_group_id row in
              let paymentResult :=
                Payment (payments_seq db) student_id group_id (field b "amount")
                        (field b "payment_month") (field b "payment_date")
                        (field b "payment_method") (or_null (b !! "notes"))
                        (current_timestamp c) in
              let db1 := with_payments db (payments db ++ [paymentResult])
                                       (payments_seq db + 1) in
              let db2 := with_students db1
                           (set_payment_status "paid" (current_timestamp c) student_id
                              <$> students db1)
                           (students_seq db1) in
              (Response 201 (Data (Some "Payment recorded successfully") paymentResult),
               db2)
          end
      end
  end.

(** DELETE /api/payments/:id *)
Definition delete_payments (c : clock) (id : string) (db : store)
  : response () * store :=
  match Text.int_in id with
  | None => (server_error, db)
  | Some n =>
      let result := filter (λ p, p_id p = n) (payments db) in
      let db1 := with_payments db (filter (λ p, p_id p ≠ n) (payments db))
                               (payments_seq db) in
      match result with
      | [] => (not_found "Payment", db1)
      | row :: _ =>
          let currentMonth := Text.slice0 7 (toISOString c) in
          let studentId := p_student_id row in
          let remainingPayments :=
            length (filter (λ p, p_student_id p = studentId
                                 ∧ p_payment_month p = currentMonth)
                           (payments db1)) in
          let db2 :=
            if decide (remainingPayments = 0%nat)
            then with_students db1
                   (set_payment_status "unpaid" (current_timestamp c) studentId
                      <$> students db1)
                   (students_seq db1)
            else db1 in
          (Response 200 (Message true "Payment deleted successfully"), db2)
      end
  end.

End Payments.

(** ** routes/students *)

Section Students.
Context `{Validators}.

Definition student_create_rules : list rule :=
  [ Rule "group_id" None isInt "Valid group ID is required";
    Rule "full_name" (Some trim) notEmpty "Full name is required";
    Rule "join_date" None isISO8601 "Valid join date is required" ].

Definition student_update_rules : list rule :=
  [ Rule "full_name" (Some trim) notEmpty "Full name is required";
    Rule "join_date" None isISO8601 "Valid join date is required" ].

(** POST /api/students *)
Definition post_students (c : clock) (req_body : body) (db : store)
  : response student * store :=
  let '(b, errors) := run_rules student_create_rules req_body in
  match errors with
  | _ :: _ => (bad_request errors, db)
  | [] =>
      match Text.int_in (field b "group_id") with
      | None => (server_error, db)
      | Some group_id =>
          let groupCheck := filter (λ g, g_id g = group_id) (groups db) in
          match groupCheck with
          | [] => (not_found "Group", db)
          | _ :: _ =>
              let result :=
                Student (students_seq db) (Some group_id) (field b "full_name")
                        (or_null (b !! "phone_number")) (or_null (b !! "parent_phone"))
                        (field b "join_date")
                        (or_default (b !! "payment_status") "unpaid")
                        (current_timestamp c) (current_timestamp c) in
              (Response 201 (Data (Some "Student created successfully") result),
               with_students db (students db ++ [result]) (students_seq db + 1))
          end
      end
  end.

(** The row written by [UPDATE students SET group_id = $1, full_name = $2,
    phone_number = $3, parent_phone = $4, join_date = $5,
    payment_status = $6, updated_at = CURRENT_TIMESTAMP]. *)
Definition student_update (c : clock) (group_id : option Z) (b : body)
    (old : student) : student :=
  Student (s_id old) group_id (field b "full_name")
          (or_null (b !! "phone_number")) (or_null (b !! "parent_phone"))
          (field b "join_date")
          (or_default (b !! "payment_status") "unpaid")
          (s_created_at old) (current_timestamp c).

(** The integer parameter for a field that may be [undefined] (sent as
    NULL); [None] when the store rejects the text. *)
Definition nullable_int (o : option string) : option (option Z) :=
  match o with
  | None => Some None
  | Some t => Some <$> Text.int_in t
  end.

(** PUT /api/students/:id *)
Definition put_students (c : clock) (id : string) (req_body : body) (db : store)
  : response student * store :=
  let '(b, errors) := run_rules student_update_rules req_body in
  match errors with
  | _ :: _ => (bad_request errors, db)
  | [] =>
      match Text.int_in id, nullable_int (b !! "group_id") with
      | Some n, Some group_id =>
          let upd := λ s, if decide (s_id s = n) then student_update c group_id b s else s in
          let result := student_update c group_id b
                          <$> filter (λ s, s_id s = n) (students db) in
          let db1 := with_students db (upd <$> students db) (students_seq db) in
          match result with
          | [] => (not_found "Student", db1)
          | row :: _ =>
              (Response 200 (Data (Some "Student updated successfully") row), db1)
          end
      | _, _ => (server_error, db)
      end
  end.

End Students.

(** ** routes/expenses *)

Section Expenses.
Context `{Validators}.

Definition expense_rules : list rule :=
  [ Rule "title" (Some trim) notEmpty "Title is required";
    Rule "amount" None isFloat_min0 "Amount must be a positive number";
    Rule "expense_date" None isISO8601 "Valid expense date is required" ].

(** POST /api/expenses *)
Definition post_expenses (c : clock) (req_body : body) (db : store)
  : response expense * store :=
  let '(b, errors) := run_rules expense_rules req_body in
  match errors with
  | _ :: _ => (bad_request errors, db)
  | [] =>
      let expense_date := field b "expense_date" in
      let expense_month := Text.slice0 7 expense_date in
      let result :=
        Expense (expenses_seq db) (field b "title") (field b "amount")
                (or_null (b !! "category")) expense_date expense_month
                (or_null (b !! "notes")) (current_timestamp c) in
      (Response 201 (Data (Some "Expense created successfully") result),
       with_expenses db (expenses db ++ [result]) (expenses_seq db + 1))
  end.

(** The row written by [UPDATE expenses SET title = $1, amount = $2,
    category = $3, expense_date = $4, expense_month = $5, notes = $6]. *)
Definition expense_update (b : body) (old : expense) : expense :=
  let expense_date := field b "expense_date" in
  let expense_month := Text.slice0 7 expense_date in
  Expense (e_id old) (field b "title") (field b "amount")
          (or_null (b !! "category")) expense_date expense_month
          (or_null (b !! "notes")) (e_created_at old).

(** PUT /api/expenses/:id *)
Definition put_expenses (id : string) (req_body : body) (db : store)
  : response expense * store :=
  let '(b, errors) := run_rules expense_rules req_body in
  match errors with
  | _ :: _ => (bad_request errors, db)
  | [] =>
      match Text.int_in id with
      | None => (server_error, db)
      | Some n =>
          let upd := λ e, if decide (e_id e = n) then expense_update b e else e in
          let result := expense_update b <$> filter (λ e, e_id e = n) (expenses db) in
          let db1 := with_expenses db (upd <$> expenses db) (expenses_seq db) in
          match result with
          | [] => (not_found "Expense", db1)
          | row :: _ =>
              (Response 200 (Data (Some "Expense updated successfully") row), db1)
          end
      end
  end.

(** DELETE /api/expenses/:id *)
Definition delete_expenses (id : string) (db : store) : response () * store :=
  match Text.int_in id with
  | None => (server_error, db)
  | Some n =>
      let result := filter (λ e, e_id e = n) (expenses db) in
      let db1 := with_expenses db (filter (λ e, e_id e ≠ n) (expenses db))
                               (expenses_seq db) in
      match result with
      | [] => (not_found "Expense", db1)
      | _ :: _ => (Response 200 (Message true "Expense deleted successfully"), db1)
      end
  end.

End Expenses.

(** ** routes/groups *)

Section Groups.
Context `{Validators}.

Definition group_rules : list rule :=
  [ Rule "name" (Some trim) notEmpty "Group name is required";
    Rule "monthly_fee" None isFloat_min0 "Monthly fee must be a positive number" ].



End Groups.

(** ** routes/auth *)

(** bcryptjs, jsonwebtoken and the token helper of middleware/auth. *)
Class Crypto := {
  (** [bcrypt.compare(password, hash)] *)
  bcrypt_compare : string → string → bool;
  (** [generateToken(admin)] *)
  generateToken : admin → string;
  (** [jwt.sign({ id, username }, process.env.JWT_SECRET, { expiresIn: '7d' })] *)
  jwt_sign : Z → string → string;
}.

Record login_data := LoginData {
  token : string; user_id : Z; user_username : string; user_email : string }.

(** A scalar of a JSON request body.  The login handlers hand the
    password to the hash library as it arrived, so for them the kind of
    the value matters.  A number is given by the text JS prints for it;
    arrays and objects are left out. *)
Inductive jvalue :=
| JString (s : string)
| JNumber (printed : string)
| JBool (b : bool)
| JNull.

(** The text the validator library checks and sanitizes, and the text
    the store driver sends for a parameter: [String(value)], and the
    empty text for [null]. *)
Definition to_text (v : jvalue) : string :=
  match v with
  | JString s => s
  | JNumber printed => printed
  | JBool true => "true"
  | JBool false => "false"
  | JNull => ""
  end.

Abbreviation json_body := (gmap string jvalue).

Section Auth.
Context `{Validators} `{Crypto}.

Definition login_rules : list rule :=
  [ Rule "username" (Some trim) notEmpty "Username is required";
    Rule "password" None notEmpty "Password is required" ].

(** POST /api/auth/login, the router built on the [query] helper.  The
    chain sees the text of each field and writes the trimmed username
    back; the password reaches [bcrypt.compare] unsanitized, and
    [bcrypt.compare] throws on a password that is not a string, which the
    [catch] of the handler answers with 500. *)
Definition post_login_json (req_body : json_body) (db : store) : response login_data :=
  let '(b, errors) := run_rules login_rules (to_text <$> req_body) in
  match errors with
  | _ :: _ => bad_request errors
  | [] =>
      let username := field b "username" in
      let password := req_body !! "password" in
      let result := filter (λ a, a_username a = username) (admins db) in
      match result with
      | [] => Response 401 (Message false "Invalid credentials")
      | admin :: _ =>
          match password with
          | Some (JString password) =>
              let isMatch := bcrypt_compare password (a_password admin) in
              if negb isMatch
              then Response 401 (Message false "Invalid credentials")
              else Response 200
                     (Data (Some "Login successful")
                           (LoginData (generateToken admin) (a_id admin)
                                      (a_username admin) (a_email admin)))
          | _ => server_error
          end
      end
  end.

(** The same handler on a body all of whose fields are strings. *)
Definition post_login (req_body : body) (db : store) : response login_data :=
  post_login_json (JString <$> req_body) db.

Definition pool_login_rules : list rule :=
  [ Rule "username" None notEmpty "Username required";
    Rule "password" None notEmpty "Password required" ].

(** POST /api/auth/login, the router built on the connection pool
    (src/routes/auth.js).  No sanitizer runs: the username reaches the
    store as the driver sends it, the password reaches [bcrypt.compare]
    as it arrived. *)
Definition pool_post_login_json (req_body : json_body) (db : store)
  : response login_data :=
  let '(b, errors) := run_rules pool_login_rules (to_text <$> req_body) in
  match errors with
  | _ :: _ => bad_request errors
  | [] =>
      let username := field b "username" in
      let password := req_body !! "password" in
      let result := filter (λ a, a_username a = username) (admins db) in
      match result with
      | [] => Response 401 (Message false "Invalid credentials")
      | admin :: _ =>
          match password with
          | Some (JString password) =>
              let isMatch := bcrypt_compare password (a_password admin) in
              if negb isMatch
              then Response 401 (Message false "Invalid credentials")
              else Response 200
                     (Data None
                           (LoginData (jwt_sign (a_id admin) (a_username admin))
                                      (a_id admin) (a_username admin) (a_email admin)))
          | _ => server_error
          end
      end
  end.

(** The same handler on a body all of whose fields are strings. *)
Definition pool_post_login (req_body : body) (db : store) : response login_data :=
  pool_post_login_json (JString <$> req_body) db.

End Auth.

(** ** routes/dashboard *)

(** Amounts are NUMERIC in the store and reach the process as text;
    [parseFloat] turns the text into a JS number. *)
Class Arith := {
  number : Type;
  (** [SUM(amount)] over the rows of one group, as the driver returns it *)
  sql_sum : list string → string;
  parseFloat : string → number;
  (** the literal [0] *)
  zero : number;
  (** [a - b] *)
  sub : number → number → number;
  sub_zero_zero : sub zero zero = zero;
}.

(** [SELECT k AS month, SUM(amount) AS total FROM t WHERE k LIKE $1
    GROUP BY k ORDER BY k], over the pairs (k, amount) of a table. *)
Definition monthly_totals `{Arith} (pattern : string) (rows : list (string * string))
  : list (string * string) :=
  let selected := filter (λ r, Text.sql_like r.1 pattern) rows in
  let months := merge_sort (λ x y, String.leb x y) (remove_dups selected.*1) in
  (λ m, (m, sql_sum (filter (λ r, r.1 = m) selected).*2)) <$> months.

Section MonthlyChart.
Context `{Arith}.

Record chart_row := ChartRow {
  month : string; income : number; expenses_total : number; profit : number }.

(** GET /api/dashboard/monthly-chart *)
Definition get_monthly_chart (c : clock) (req_query : body) (db : store)
  : response (list chart_row) :=
  let currentYear := or_default (req_query !! "year") (getFullYear c) in
  let incomeResult :=
    monthly_totals (currentYear +:+ "%")
                   ((λ p, (p_payment_month p, p_amount p)) <$> payments db) in
  let expensesResult :=
    monthly_totals (currentYear +:+ "%")
                   ((λ e, (e_expense_month e, e_amount e)) <$> expenses db) in
  let months :=
    (λ i : nat,
       let month := currentYear +:+ "-" +:+ Text.padStart2 i in
       let incomeData := List.find (λ r, bool_decide (r.1 = month)) incomeResult in
       let expenseData := List.find (λ r, bool_decide (r.1 = month)) expensesResult in
       ChartRow month
         (match incomeData with Some r => parseFloat r.2 | None => zero end)
         (match expenseData with Some r => parseFloat r.2 | None => zero end)
         (sub (match incomeData with Some r => parseFloat r.2 | None => zero end)
              (match expenseData with Some r => parseFloat r.2 | None => zero end)))
      <$> seq 1 12 in
  Response 200 (Data None months).

End MonthlyChart.

(** The store's typing of number expressions, as far as the top-groups
    statement needs it. *)
Module Sql.

(** [integer], [bigint], [numeric], [double precision]. *)
Inductive ty := Int4 | Int8 | Numeric | Float8.

(** The implicit casts of the store between these types lead from a type
    to itself and to the types after it in the sequence above; the cast
    from [double precision] back to [numeric] is made on assignment or on
    request only. *)
Definition rank (t : ty) : nat :=
  match t with Int4 => 0 | Int8 => 1 | Numeric => 2 | Float8 => 3 end.
Definition implicit (from to : ty) : bool := (rank from <=? rank to)%nat.
Definition wider (a b : ty) : ty := if implicit a b then b else a.

Inductive expr :=
| Count                        (** [COUNT(..)], a [bigint] *)
| Literal                      (** an integer literal *)
| Cast (e : expr) (t : ty)     (** [e::t] *)
| Arith (e1 e2 : expr)         (** [e1 / e2], [e1 * e2] *)
| Case (e1 e2 : expr)          (** [CASE WHEN .. THEN e1 ELSE e2 END] *)
| Round (e scale : expr).      (** [ROUND(e, scale)] *)

(** The type the store gives an expression; [None] when it rejects the
    statement.  The only [round] with a scale is [round(numeric,
    integer)], reached through implicit casts of the arguments. *)
Fixpoint type_of (e : expr) : option ty :=
  match e with
  | Count => Some Int8
  | Literal => Some Int4
  | Cast e t => _ ← type_of e; Some t
  | Arith e1 e2 | Case e1 e2 => t1 ← type_of e1; t2 ← type_of e2; Some (wider t1 t2)
  | Round e scale =>
      t1 ← type_of e; t2 ← type_of scale;
      if implicit t1 Numeric && implicit t2 Int4 then Some Numeric else None
  end.

End Sql.

Module TopGroups.

Local Open Scope Q_scope.

Record row := Row {
  id : Z; name : string; teacher_name : option string; monthly_fee : string;
  student_count : nat; paid_students : nat; payment_rate : Q }.

(** Modelled from the spec: the store evaluates the statement and is not
    among the sources.  Double precision values are rationals; the
    division [a::float / b::float] raises "division by zero" on a zero
    divisor. *)
Definition float_div (a b : Q) : option Q :=
  if Qeq_bool b 0 then None else Some (a / b).

(** Modelled from the spec: "rounded to 2 decimal places", the nearest
    hundredth, halves away from zero: what the rows would show were the
    rounding of the statement accepted by the store. *)
Definition round2 (x : Q) : Q :=
  Qmake (if Qle_bool 0 x then Qfloor (x * 100 + (1 # 2)) else Qceiling (x * 100 - (1 # 2))) 100.

(** [COUNT(DISTINCT s.id)] and [COUNT(DISTINCT CASE WHEN s.payment_status =
    'paid' THEN s.id END)] over the students joined to group [gid]. *)
Definition joined (db : store) (gid : Z) : list student :=
  filter (λ s, s_group_id s = Some gid) (students db).
Definition count_students (db : store) (gid : Z) : nat :=
  length (remove_dups (s_id <$> joined db gid)).
Definition count_paid (db : store) (gid : Z) : nat :=
  length (remove_dups (s_id <$> filter (λ s, s_payment_status s = "paid") (joined db gid))).

(** [CASE WHEN COUNT(..) > 0 THEN (paid::float / count::float) * 100
    ELSE 0 END]; [None] when the evaluation raises. *)
Definition rate_case (count paid : nat) : option Q :=
  if decide (0 < count)%nat
  then (λ q, q * 100) <$> float_div (inject_Z (Z.of_nat paid)) (inject_Z (Z.of_nat count))
  else Some 0.

(** One output row per [GROUP BY g.id, g.name, g.teacher_name, g.monthly_fee]. *)
Definition select_row (db : store) (k : Z * string * option string * string)
  : option row :=
  let '(gid, gname, teacher, fee) := k in
  let count := count_students db gid in
  let paid := count_paid db gid in
  (λ r, Row gid gname teacher fee count paid (round2 r)) <$> rate_case count paid.

(** [ORDER BY student_count DESC, payment_rate DESC]. *)
Definition order_by (a b : row) : Prop :=
  (student_count b < student_count a)%nat
  ∨ (student_count a = student_count b ∧ payment_rate b <= payment_rate a).

#[global] Instance order_by_dec a b : Decision (order_by a b).
Proof.
  unfold order_by.
  destruct (Qlt_le_dec (payment_rate a) (payment_rate b)) as [Hlt|Hle].
  - destruct (decide (student_count b < student_count a)%nat) as [Hc|Hc].
    + left. by left.
    + right. intros [?|[_ ?]]; [done|]. by apply (Qlt_not_le _ _ Hlt).
  - destruct (decide (student_count b < student_count a)%nat) as [Hc|Hc].
    + left. by left.
    + destruct (decide (student_count a = student_count b)) as [He|He].
      * left. by right.
      * right. intros [?|[? _]]; done.
Defined.

Definition group_keys (db : store) : list (Z * string * option string * string) :=
  remove_dups ((λ g, (g_id g, g_name g, g_teacher_name g, g_monthly_fee g)) <$> groups db).

(** The rows of the statement; [None] when the evaluation raises. *)
Definition top_groups_query (db : store) : option (list row) :=
  (λ rows, take 10 (merge_sort order_by rows)) <$> mapM (select_row db) (group_keys db).

(** The select item [payment_rate]:
    [ROUND(CASE WHEN .. THEN (COUNT(..)::float / COUNT(..)::float) * 100
    ELSE 0 END, 2)]. *)
Definition payment_rate_expr : Sql.expr :=
  Sql.Round
    (Sql.Case
       (Sql.Arith (Sql.Arith (Sql.Cast Sql.Count Sql.Float8) (Sql.Cast Sql.Count Sql.Float8))
                  Sql.Literal)
       Sql.Literal)
    Sql.Literal.

(** GET /api/dashboard/top-groups: the store types the statement before
    it reads a row; a statement it rejects raises in [query], and the
    [catch] of the handler answers 500. *)
Definition get_top_groups (db : store) : response (list row) :=
  match Sql.type_of payment_rate_expr with
  | None => server_error
  | Some _ =>
      match top_groups_query db with
      | Some rows => Response 200 (Data None rows)
      | None => server_error
      end
  end.

End TopGroups.

(** ** The remaining routes *)

(** [ORDER BY k1 DESC, k2 DESC] on text columns: [a] may precede [b]. *)
Definition desc2 {A} (k1 k2 : A → string) (a b : A) : Prop :=
  String.ltb (k1 b) (k1 a) ∨ (k1 a = k1 b ∧ String.leb (k2 b) (k2 a)).

(** [ORDER BY k DESC] and [ORDER BY k]. *)
Definition desc1 {A} (k : A → string) (a b : A) : Prop := String.leb (k b) (k a).
Definition asc1 {A} (k : A → string) (a b : A) : Prop := String.leb (k a) (k b).

#[global] Instance desc2_dec {A} (k1 k2 : A → string) a b : Decision (desc2 k1 k2 a b).
Proof. unfold desc2. apply _. Defined.
#[global] Instance desc1_dec {A} (k : A → string) a b : Decision (desc1 k a b).
Proof. unfold desc1. apply _. Defined.
#[global] Instance asc1_dec {A} (k : A → string) a b : Decision (asc1 k a b).
Proof. unfold asc1. apply _. Defined.

(** An optional integer filter of a query string, [if (x) { .. = $n }]:
    no filter when the parameter is absent or empty, [None] when the
    store rejects the text. *)
Definition int_filter (o : option string) : option (option Z) :=
  match or_null o with
  | None => Some None
  | Some t => Some <$> Text.int_in t
  end.

(** A row of [SELECT s.*, g.name as group_name, g.monthly_fee FROM students
    s LEFT JOIN groups g ON s.group_id = g.id]. *)
Record student_view := StudentView {
  sv_student : student; sv_group_name : option string; sv_monthly_fee : option string }.

Definition join_group (db : store) (s : student) : list student_view :=
  match filter (λ g, Some (g_id g) = s_group_id s) (groups db) with
  | [] => [StudentView s None None]
  | gs => (λ g, StudentView s (Some (g_name g)) (Some (g_monthly_fee g))) <$> gs
  end.

(** The optional [WHERE s.group_id = $1]. *)
Definition student_selected (group_id : option Z) (s : student) : Prop :=
  match group_id with Some g => s_group_id s = Some g | None => True end.

#[global] Instance student_selected_dec group_id s : Decision (student_selected group_id s).
Proof. unfold student_selected. destruct group_id; apply _. Defined.

(** GET /api/students *)
Definition get_students (req_query : body) (db : store) : response (list student_view) :=
  match int_filter (req_query !! "group_id") with
  | None => server_error
  | Some group_id =>
      let selected := filter (student_selected group_id) (students db) in
      Response 200
        (Data None (merge_sort (desc1 (λ v, s_created_at (sv_student v)))
                               (selected ≫= join_group db)))
  end.

(** GET /api/students/:id *)
Definition get_student (id : string) (db : store) : response student_view :=
  match Text.int_in id with
  | None => server_error
  | Some n =>
      match filter (λ s, s_id s = n) (students db) ≫= join_group db with
      | [] => not_found "Student"
      | row :: _ => Response 200 (Data None row)
      end
  end.

(** DELETE /api/students/:id *)
Definition delete_students (id : string) (db : store) : response () * store :=
  match Text.int_in id with
  | None => (server_error, db)
  | Some n =>
      let result := filter (λ s, s_id s = n) (students db) in
      let db1 := with_students db (filter (λ s, s_id s ≠ n) (students db))
                               (students_seq db) in
      match result with
      | [] => (not_found "Student", db1)
      | _ :: _ => (Response 200 (Message true "Student deleted successfully"), db1)
      end
  end.

(** A row of [SELECT p.*, s.full_name as student_name, g.name as group_name
    FROM payments p LEFT JOIN students s ON p.student_id = s.id
    LEFT JOIN groups g ON p.group_id = g.id]. *)
Record payment_view := PaymentView {
  pv_payment : payment; pv_student_name : option string; pv_group_name : option string }.

Definition join_names (db : store) (p : payment) : list payment_view :=
  let student_names :=
    match filter (λ s, s_id s = p_student_id p) (students db) with
    | [] => [None]
    | ss => (λ s, Some (s_full_name s)) <$> ss
    end in
  let group_names :=
    match filter (λ g, Some (g_id g) = p_group_id p) (groups db) with
    | [] => [None]
    | gs => (λ g, Some (g_name g)) <$> gs
    end in
  student_names ≫= λ sn, PaymentView p sn <$> group_names.

(** The [WHERE 1=1 AND ..] clause built from the query string. *)
Definition payment_selected (month : option string) (student_id group_id : option Z)
    (p : payment) : Prop :=
  match month with Some m => p_payment_month p = m | None => True end
  ∧ match student_id with Some s => p_student_id p = s | None => True end
  ∧ match group_id with Some g => p_group_id p = Some g | None => True end.

#[global] Instance payment_selected_dec month student_id group_id p :
  Decision (payment_selected month student_id group_id p).
Proof. unfold payment_selected. destruct month, student_id, group_id; apply _. Defined.

(** GET /api/payments *)
Definition get_payments (req_query : body) (db : store) : response (list payment_view) :=
  match int_filter (req_query !! "student_id"), int_filter (req_query !! "group_id") with
  | Some student_id, Some group_id =>
      let month := or_null (req_query !! "month") in
      let selected := filter (payment_selected month student_id group_id) (payments db) in
      Response 200
        (Data None (merge_sort (desc2 (λ v, p_payment_date (pv_payment v))
                                      (λ v, p_created_at (pv_payment v)))
                               (selected ≫= join_names db)))
  | _, _ => server_error
  end.

(** A row of GET /api/groups: [g.*] with [COUNT(DISTINCT s.id)] and the
    count of paid students, grouped by the key [g.id]. *)
Record group_counts := GroupCounts {
  gc_group : group; gc_student_count : nat; gc_paid_students : nat }.

(** GET /api/groups *)
Definition get_groups (db : store) : response (list group_counts) :=
  Response 200
    (Data None
       (merge_sort (desc1 (λ r, g_created_at (gc_group r)))
          ((λ g, GroupCounts g (TopGroups.count_students db (g_id g))
                             (TopGroups.count_paid db (g_id g))) <$> groups db))).

(** GET /api/groups/:id: the group and its students by name. *)
Definition get_group (id : string) (db : store) : response (group * list student) :=
  match Text.int_in id with
  | None => server_error
  | Some n =>
      match filter (λ g, g_id g = n) (groups db) with
      | [] => not_found "Group"
      | g :: _ =>
          let studentsResult :=
            merge_sort (asc1 s_full_name)
                       (filter (λ s, s_group_id s = Some n) (students db)) in
          Response 200 (Data None (g, studentsResult))
      end
  end.

Section GroupsWrite.
Context `{Validators}.

(** POST /api/groups; [new_id] is what the sequence of the table yields. *)
Definition post_groups (c : clock) (new_id : Z) (req_body : body) (db : store)
  : response group * store :=
  let '(b, errors) := run_rules group_rules req_body in
  match errors with
  | _ :: _ => (bad_request errors, db)
  | [] =>
      let result :=
        Group new_id (field b "name") (or_null (b !! "teacher_name"))
              (field b "monthly_fee") (current_timestamp c) (current_timestamp c) in
      (Response 201 (Data (Some "Group created successfully") result),
       with_groups db (groups db ++ [result]))
  end.

End GroupsWrite.

(** DELETE /api/groups/:id *)
Definition delete_groups (id : string) (db : store) : response () * store :=
  match Text.int_in id with
  | None => (server_error, db)
  | Some n =>
      let result := filter (λ g, g_id g = n) (groups db) in
      let db1 := with_groups db (filter (λ g, g_id g ≠ n) (groups db)) in
      match result with
      | [] => (not_found "Group", db1)
      | _ :: _ => (Response 200 (Message true "Group deleted successfully"), db1)
      end
  end.

(** The optional [AND expense_month = $1]. *)
Definition expense_selected (month : option string) (e : expense) : Prop :=
  match month with Some m => e_expense_month e = m | None => True end.

#[global] Instance expense_selected_dec month e : Decision (expense_selected month e).
Proof. unfold expense_selected. destruct month; apply _. Defined.


(** GET /api/dashboard/unpaid-students *)
Definition get_unpaid_students (db : store) : response (list student_view) :=
  Response 200
    (Data None
       (merge_sort (desc1 (λ v, s_join_date (sv_student v)))
          (filter (λ s, s_payment_status s = "unpaid") (students db) ≫= join_group db))).

(** [SELECT payment_status, COUNT( * ) FROM students GROUP BY payment_status]. *)
Definition status_counts (l : list student) : list (string * nat) :=
  (λ st, (st, length (filter (λ s, s_payment_status s = st) l)))
    <$> remove_dups (s_payment_status <$> l).

Section Stats.
Context `{Arith}.

Record stats := Stats {
  stats_month : string;
  totalIncome : number; totalExpenses : number; netProfit : number;
  totalGroups : nat; totalStudents : nat;
  paymentStatus : list (string * nat) }.

(** [COALESCE(SUM(amount), 0)]: the sum of no row is NULL. *)
Definition coalesce_sum (amounts : list string) : string :=
  match amounts with
  | [] => "0"
  | _ => sql_sum amounts
  end.

(** GET /api/dashboard/stats *)
Definition get_stats (c : clock) (req_query : body) (db : store) : response stats :=
  let currentMonth := or_default (req_query !! "month") (Text.slice0 7 (toISOString c)) in
  let incomeResult :=
    coalesce_sum (p_amount <$> filter (λ p, p_payment_month p = currentMonth) (payments db)) in
  let expensesResult :=
    coalesce_sum (e_amount <$> filter (λ e, e_expense_month e = currentMonth) (expenses db)) in
  let totalIncome := parseFloat incomeResult in
  let totalExpenses := parseFloat expensesResult in
  let netProfit := sub totalIncome totalExpenses in
  Response 200
    (Data None
       (Stats currentMonth totalIncome totalExpenses netProfit
              (length (groups db)) (length (students db))
              (status_counts (students db)))).

End Stats.

(** ** Registration (routes/auth) *)

(** [isEmail()] of the validator library, and the salted hash of bcryptjs;
    the salt drawn by [genSalt] is an input of the handler. *)
Class Registration := {
  isEmail : string → bool;
  bcrypt_hash : string → string → string;
}.

(** [isLength({ min })]. *)
Definition isLength_min (min : nat) (s : string) : bool := (min <=? String.length s)%nat.

Record registered := Registered {
  reg_id : Z; reg_username : string; reg_email : string }.

Section Register.
Context `{Validators} `{Registration}.

Definition register_rules : list rule :=
  [ Rule "username" (Some trim) (isLength_min 3) "Username must be at least 3 characters";
    Rule "password" None (isLength_min 6) "Password must be at least 6 characters";
    Rule "email" None isEmail "Invalid email address" ].

(** POST /api/auth/register, the router built on the [query] helper;
    [new_id] is what the sequence of the table yields. *)
Definition post_register (salt : string) (new_id : Z) (req_body : body) (db : store)
  : response registered * store :=
  let '(b, errors) := run_rules register_rules req_body in
  match errors with
  | _ :: _ => (bad_request errors, db)
  | [] =>
      let username := field b "username" in
      let password := field b "password" in
      let email := field b "email" in
      let existingAdmin :=
        filter (λ a, a_username a = username ∨ a_email a = email) (admins db) in
      match existingAdmin with
      | _ :: _ => (Response 400 (Message false "Username or email already exists"), db)
      | [] =>
          let hashedPassword := bcrypt_hash salt password in
          let newAdmin := Admin new_id username hashedPassword email in
          (Response 201 (Data (Some "Admin registered successfully")
                              (Registered new_id username email)),
           Store (admins db ++ [newAdmin]) (groups db) (students db) (payments db)
                 (expenses db) (students_seq db) (payments_seq db) (expenses_seq db))
      end
  end.

End Register.

(** ** Vocabulary of the statements *)

(** The request passes the chain: [errors.isEmpty()]. *)
Definition passes (rules : list rule) (b : body) : Prop := (run_rules rules b).2 = [].

#[global] Instance passes_dec rules b : Decision (passes rules b).
Proof. unfold passes. apply _. Defined.

(** What [DELETE FROM payments WHERE id = $1] leaves, and what it returns. *)
Definition payments_without (n : Z) (db : store) : list payment :=
  filter (λ p, p_id p ≠ n) (payments db).
Definition payments_with (n : Z) (db : store) : list payment :=
  filter (λ p, p_id p = n) (payments db).

(** No group row carries the id the request gives. *)
Definition unknown_group (b : body) (db : store) : Prop :=
  ∀ g, g ∈ groups db → Text.int_in (field b "group_id") ≠ Some (g_id g).

(** The month column agrees with the date column on every row. *)
Definition month_in_sync (db : store) : Prop :=
  ∀ e, e ∈ expenses db → e_expense_month e = Text.slice0 7 (e_expense_date e).





(** The twelve month tokens of the loop, [String(i).padStart(2, '0')] for
    i from 1 to 12. *)
Definition calendar : list string :=
  ["01"; "02"; "03"; "04"; "05"; "06"; "07"; "08"; "09"; "10"; "11"; "12"].

(** [paid / count * 100], exactly. *)
Definition exact_rate (count paid : nat) : Q :=
  (inject_Z (Z.of_nat paid) / inject_Z (Z.of_nat count) * 100)%Q.

(** The rows a list route answers with; none when it answers an error. *)
Definition rows_of {A} (r : response (list A)) : list A :=
  match json r with
  | Data _ rows => rows
  | _ => []
  end.

(** ** A concrete platform for the worked examples *)

Module Demo.

Definition is_space (a : ascii) : bool :=
  let n := nat_of_ascii a in ((9 <=? n)%nat && (n <=? 13)%nat) || (n =? 32)%nat.

Fixpoint ltrim (s : string) : string :=
  match s with
  | String a s' => if is_space a then ltrim s' else s
  | EmptyString => EmptyString
  end.

Definition trim_spaces (s : string) : string :=
  String.rev (ltrim (String.rev (ltrim s))).

(** Digits with an optional fractional part. *)
Fixpoint is_decimal (seen_digit : bool) (s : string) : bool :=
  match s with
  | EmptyString => seen_digit
  | String "." s' => seen_digit && negb (String.eqb s' "") && Text.all_digits s'
  | String a s' => Text.is_digit a && is_decimal true s'
  end.

(** Calendar dates written YYYY-MM-DD or, without the hyphens, YYYYMMDD:
    two of the forms of ISO 8601. *)
Definition is_date (s : string) : bool :=
  match s with
  | String a (String b (String c (String d (String "-" (String e (String f
      (String "-" (String g (String h EmptyString))))))))) =>
      Text.is_digit a && Text.is_digit b && Text.is_digit c && Text.is_digit d
      && Text.is_digit e && Text.is_digit f && Text.is_digit g && Text.is_digit h
  | _ => (String.length s =? 8)%nat && Text.all_digits s
  end.

#[export] Instance validators : Validators :=
  {| trim := trim_spaces; isFloat_min0 := is_decimal false; isISO8601 := is_date |}.

#[export] Instance crypto : Crypto :=
  {| bcrypt_compare password hash := String.eqb ("$2a$" +:+ password) hash;
     generateToken a := "jwt." +:+ a_username a;
     jwt_sign i username := "jwt." +:+ username |}.

(** Decimal digits of a natural number, most significant first. *)
Fixpoint digits_of (fuel : nat) (n : Z) (acc : string) : string :=
  match fuel with
  | O => acc
  | S fuel' =>
      let acc' := String (ascii_of_nat (48 + Z.to_nat (n mod 10))) acc in
      if n / 10 =? 0 then acc' else digits_of fuel' (n / 10) acc'
  end.

Definition print_Z (z : Z) : string :=
  if z <? 0 then "-" +:+ digits_of (S (Z.to_nat (Z.log2 (- z)))) (- z) ""
  else digits_of (S (Z.to_nat (Z.log2 z))) z "".

(** Whole amounts, summed and parsed as integers. *)
#[export] Instance arith : Arith :=
  {| number := Z;
     sql_sum l := print_Z (foldr Z.add 0 ((λ s, default 0 (Text.signed_digits s)) <$> l));
     parseFloat s := default 0 (Text.signed_digits s);
     zero := 0;
     sub := Z.sub;
     sub_zero_zero := eq_refl |}.

Definition now : clock :=
  Clock "2024-03-15T10:00:00.000Z" "2024" "2024-03-15 10:00:00".

Definition g1 : group := Group 1 "Algebra" (Some "Karimov") "300000" "t0" "t0".
Definition g2 : group := Group 2 "Physics" None "250000" "t0" "t0".
Definition s1 : student :=
  Student 1 (Some 1) "Ali Valiev" (Some "+998901234567") None "2024-01-10" "unpaid" "t0" "t0".
Definition s2 : student :=
  Student 2 (Some 1) "Vali Aliev" None (Some "+998907654321") "2024-01-11" "paid" "t0" "t0".
Definition p1 : payment :=
  Payment 1 2 (Some 1) "300000" "2024-03" "2024-03-01" "cash" None "t1".
Definition p2 : payment :=
  Payment 2 2 (Some 1) "300000" "2024-03" "2024-03-05" "card" None "t2".
Definition p3 : payment :=
  Payment 3 2 (Some 1) "300000" "2024-02" "2024-02-05" "card" None "t2".
Definition e1 : expense :=
  Expense 1 "Rent" "1000000" (Some "office") "2024-03-15" "2024-03" (Some "march") "t1".
Definition root : admin := Admin 1 "root" "$2a$secret" "root@example.org".

Definition db0 : store := Store [root] [g1; g2] [s1; s2] [p1; p2; p3] [e1] 3 4 2.

End Demo.

Module DemoAuth.

(** One "@", with text on both sides. *)
Fixpoint has_at (seen_local : bool) (s : string) : bool :=
  match s with
  | EmptyString => false
  | String a s' =>
      if Ascii.eqb a "@" then seen_local && negb (String.eqb s' "")
      else has_at true s'
  end.

#[export] Instance registration : Registration :=
  {| isEmail := has_at false;
     bcrypt_hash salt password := "$2a$" +:+ password |}.

End DemoAuth.

Section Examples.
Import Demo.

Example int_in_12 : Text.int_in "12" = Some 12.
Proof. reflexivity. Qed.
Example int_in_neg : Text.int_in "-7" = Some (-7).
Proof. reflexivity. Qed.
Example int_in_bad : Text.int_in "1a" = None.
Proof. reflexivity. Qed.
Example int_in_blanks : Text.int_in " 12 " = Some 12.
Proof. reflexivity. Qed.
Example int_in_empty : Text.int_in "" = None.
Proof. reflexivity. Qed.
Example int_in_max : Text.int_in "2147483647" = Some 2147483647.
Proof. reflexivity. Qed.
Example int_in_overflow : Text.int_in "2147483648" = None.
Proof. reflexivity. Qed.
Example int_in_huge : Text.int_in "99999999999999999999" = None.
Proof. reflexivity. Qed.
Example isInt_huge : isInt "99999999999999999999" = true.
Proof. reflexivity. Qed.
Example isInt_blank : isInt " 1" = false.
Proof. reflexivity. Qed.
Example slice_date : Text.slice0 7 "2024-03-15" = "2024-03".
Proof. reflexivity. Qed.
Example pad_3 : Text.padStart2 3 = "03".
Proof. reflexivity. Qed.
Example pad_12 : Text.padStart2 12 = "12".
Proof. reflexivity. Qed.
Example int_filter_blank : int_filter (Some " 2") = Some (Some 2).
Proof. reflexivity. Qed.
Example rate_type : Sql.type_of TopGroups.payment_rate_expr = None.
Proof. reflexivity. Qed.
Example rate_case_type :
  Sql.type_of (Sql.Case (Sql.Arith (Sql.Cast Sql.Count Sql.Float8) Sql.Literal) Sql.Literal)
  = Some Sql.Float8.
Proof. reflexivity. Qed.
Example top_groups_db0_answer :
  TopGroups.count_students db0 2 = 0%nat
  ∧ TopGroups.get_top_groups db0 = Response 500 (Message false "Server error").
Proof. split; reflexivity. Qed.
Example like_year : Text.sql_like "2024-03" "2024%" = true.
Proof. reflexivity. Qed.
Example like_other_year : Text.sql_like "2023-03" "2024%" = false.
Proof. reflexivity. Qed.
Example like_underscore : Text.sql_like "2024-03" "202_-0_%" = true.
Proof. reflexivity. Qed.
Example trim_name : trim "  Ali  " = "Ali".
Proof. reflexivity. Qed.
Example print_Z_600000 : print_Z 600000 = "600000".
Proof. reflexivity. Qed.
Example print_Z_neg : print_Z (-45) = "-45".
Proof. reflexivity. Qed.
Example print_Z_zero : print_Z 0 = "0".
Proof. reflexivity. Qed.

Example delete_one_of_two :
  students (delete_payments now "1" db0).2 = [s1; s2].
Proof. vm_compute. reflexivity. Qed.

Example top_groups_db0 :
  TopGroups.top_groups_query db0
  = Some [ TopGroups.Row 1 "Algebra" (Some "Karimov") "300000" 2 1 (5000 # 100)%Q;
           TopGroups.Row 2 "Physics" None "250000" 0 0 (0 # 100)%Q ].
Proof. vm_compute. reflexivity. Qed.

End Examples.

(** ** Validation chains *)

Lemma run_rules_cons r rules b :
  run_rules (r :: rules) b
  = ((run_rules rules (sanitize r b)).1,
     if rule_check r (field (sanitize r b) (rule_field r))
     then (run_rules rules (sanitize r b)).2
     else VError (rule_field r) (rule_msg r) :: (run_rules rules (sanitize r b)).2).
Proof. simpl. by destruct (run_rules rules (sanitize r b)). Qed.

Lemma passes_cons r rules b :
  passes (r :: rules) b
  ↔ rule_check r (field (sanitize r b) (rule_field r)) = true
    ∧ passes rules (sanitize r b).
Proof.
  unfold passes. rewrite run_rules_cons. simpl.
  destruct (rule_check r _); [tauto|].
  split; [discriminate|]. by intros [? _].
Qed.

Lemma run_rules_body_cons r rules b :
  (run_rules (r :: rules) b).1 = (run_rules rules (sanitize r b)).1.
Proof. by rewrite run_rules_cons. Qed.

(** A handler's first step, once the chain is known to pass. *)
Lemma run_rules_passes rules b :
  passes rules b → run_rules rules b = ((run_rules rules b).1, []).
Proof. unfold passes. destruct (run_rules rules b) as [b' e]. simpl. by intros ->. Qed.

Lemma run_rules_fails rules b :
  ¬ passes rules b →
  ∃ e es, run_rules rules b = ((run_rules rules b).1, e :: es).
Proof.
  unfold passes. destruct (run_rules rules b) as [b' [|e es]]; simpl; [done|].
  intros _. by exists e, es.
Qed.

Lemma field_insert_eq (b : body) k v : field (<[k := v]> b) k = v.
Proof. unfold field. by rewrite lookup_insert_eq. Qed.

Lemma field_insert_ne (b : body) k k' v : k ≠ k' → field (<[k := v]> b) k' = field b k'.
Proof. intros. unfold field. by rewrite lookup_insert_ne. Qed.

(** Reads of a request after a sanitizer wrote one field back. *)
Ltac simplify_fields :=
  repeat first
    [ rewrite field_insert_eq
    | rewrite field_insert_ne by done
    | rewrite lookup_insert_ne by done
    | rewrite lookup_insert_eq ].

(** ** Lists as tables *)

Lemma filter_all {A} (P : A → Prop) `{∀ x, Decision (P x)} (l : list A) :
  (∀ x, x ∈ l → P x) → filter P l = l.
Proof.
  induction l as [|x l IH]; intros Hall; [done|].
  rewrite filter_cons_True by (apply Hall; left).
  f_equal. apply IH. intros y Hy. apply Hall. by right.
Qed.

Lemma filter_none {A} (P : A → Prop) `{∀ x, Decision (P x)} (l : list A) :
  (∀ x, x ∈ l → ¬ P x) → filter P l = [].
Proof.
  induction l as [|x l IH]; intros Hall; [done|].
  rewrite filter_cons_False by (apply Hall; left).
  apply IH. intros y Hy. apply Hall. by right.
Qed.

Lemma filter_nonempty {A} (P : A → Prop) `{∀ x, Decision (P x)} (l : list A) x :
  x ∈ l → P x → ∃ y ys, filter P l = y :: ys.
Proof.
  intros Hx HP.
  destruct (filter P l) as [|y ys] eqn:E; [|by exists y, ys].
  assert (x ∈ filter P l) as Hin by (apply list_elem_of_filter; done).
  rewrite E in Hin. by apply elem_of_nil in Hin.
Qed.

(** ** The status column *)

Lemma set_payment_status_id st ts id s : s_id (set_payment_status st ts id s) = s_id s.
Proof. unfold set_payment_status. by destruct (decide _). Qed.

Lemma set_payment_status_hit st ts id s :
  s_id s = id → s_payment_status (set_payment_status st ts id s) = st.
Proof. intros. unfold set_payment_status. by rewrite decide_True. Qed.

Lemma set_payment_status_all st ts id (l : list student) s :
  s ∈ set_payment_status st ts id <$> l → s_id s = id → s_payment_status s = st.
Proof.
  intros [s0 [-> Hs0]]%list_elem_of_fmap Hid.
  rewrite set_payment_status_id in Hid. by apply set_payment_status_hit.
Qed.

Lemma store_eta db :
  Store (admins db) (groups db) (students db) (payments db) (expenses db)
        (students_seq db) (payments_seq db) (expenses_seq db) = db.
Proof. by destruct db. Qed.

(** ** Status reconciliation (routes/payments) *)

Section Reconciliation.
Context `{Validators}.

(** The payment chain has no sanitizer: the handler reads the request
    as it came. *)
Lemma payment_rules_body b : (run_rules payment_rules b).1 = b.
Proof. unfold payment_rules. by rewrite !run_rules_body_cons. Qed.

(** C1.  A payment-creation request that passes validation and names an
    existing student is answered 201, appends the payment row, and sets
    the status of the student to paid; the month the payment covers and
    the month of the clock play no part. *)
Theorem post_payments_sets_paid (c : clock) (b : body) (db : store) (sid : Z) :
  passes payment_rules b →
  Text.int_in (field b "student_id") = Some sid →
  (∃ s, s ∈ students db ∧ s_id s = sid) →
  ∃ pay,
    (post_payments c b db).1
    = Response 201 (Data (Some "Payment recorded successfully") pay)
    ∧ payments (post_payments c b db).2 = (payments db ++ [pay])%list
    ∧ p_student_id pay = sid
    ∧ p_payment_month pay = field b "payment_month"
    ∧ students (post_payments c b db).2
      = set_payment_status "paid" (current_timestamp c) sid <$> students db
    ∧ (∀ s, s ∈ students (post_payments c b db).2 →
            s_id s = sid → s_payment_status s = "paid")
    ∧ (∃ s, s ∈ students (post_payments c b db).2 ∧ s_id s = sid).
Proof.
  intros Hok Hsid (s & Hs & Hid).
  unfold post_payments.
  rewrite (run_rules_passes _ _ Hok), payment_rules_body, Hsid.
  destruct (filter_nonempty (λ s, s_id s = sid) (students db) s Hs Hid)
    as (row & rows & ->).
  eexists. simpl. repeat split.
  - intros s'. apply set_payment_status_all.
  - exists (set_payment_status "paid" (current_timestamp c) sid s). split.
    + apply list_elem_of_fmap. by exists s.
    + rewrite set_payment_status_id. done.
Qed.

End Reconciliation.

Lemma delete_payments_payments c id n db :
  Text.int_in id = Some n →
  payments (delete_payments c id db).2 = payments_without n db.
Proof.
  intros Hid. unfold delete_payments. rewrite Hid.
  destruct (filter _ (payments db)); [done|].
  simpl. by destruct (decide _).
Qed.

(** C2.  Deleting an existing payment removes its rows; with
    [row] the deleted row the handler reads the student from, the student's
    status becomes unpaid when no remaining payment of that student is for
    the month of the clock at deletion time, and the students table is
    left as it was when one remains. *)
Theorem delete_payments_reconciles (c : clock) (id : string) (n : Z)
    (db : store) (row : payment) :
  Text.int_in id = Some n →
  head (payments_with n db) = Some row →
  let currentMonth := Text.slice0 7 (toISOString c) in
  let sid := p_student_id row in
  let db' := (delete_payments c id db).2 in
  (delete_payments c id db).1 = Response 200 (Message true "Payment deleted successfully")
  ∧ payments db' = payments_without n db
  ∧ ((∀ p, p ∈ payments_without n db → p_student_id p = sid →
           p_payment_month p ≠ currentMonth) →
     students db' = set_payment_status "unpaid" (current_timestamp c) sid <$> students db
     ∧ ∀ s, s ∈ students db' → s_id s = sid → s_payment_status s = "unpaid")
  ∧ ((∃ p, p ∈ payments_without n db ∧ p_student_id p = sid
           ∧ p_payment_month p = currentMonth) →
     students db' = students db).
Proof.
  intros Hid Hrow. simpl.
  split; [|split; [by apply delete_payments_payments|]].
  - unfold delete_payments. rewrite Hid.
    unfold payments_with in Hrow. by destruct (filter _ (payments db)).
  - unfold delete_payments. rewrite Hid.
    unfold payments_with in Hrow.
    destruct (filter (λ p, p_id p = n) (payments db)) as [|r rs]; [done|].
    simpl in Hrow. injection Hrow as ->. simpl.
    fold (payments_without n db).
    split.
    + intros Hnone.
      rewrite (filter_none _ (payments_without n db))
        by (intros q Hq [Hs Hm]; by apply (Hnone q Hq Hs)).
      simpl. split; [done|]. intros s. apply set_payment_status_all.
    + intros (p & Hp & Hsid & Hmonth).
      destruct (filter_nonempty
                  (λ q, p_student_id q = p_student_id row
                        ∧ p_payment_month q = Text.slice0 7 (toISOString c))
                  (payments_without n db) p Hp (conj Hsid Hmonth))
        as (y & ys & ->).
      done.
Qed.

(** C3.  Deleting a stored payment id twice: the first request is answered
    200, the second 404 "Payment not found", and the second leaves the
    store as the first left it. *)
Theorem delete_payments_twice (c c' : clock) (id : string) (n : Z) (db : store) :
  Text.int_in id = Some n →
  (∃ p, p ∈ payments db ∧ p_id p = n) →
  let first := delete_payments c id db in
  let second := delete_payments c' id first.2 in
  first.1 = Response 200 (Message true "Payment deleted successfully")
  ∧ second.1 = Response 404 (Message false "Payment not found")
  ∧ second.2 = first.2.
Proof.
  intros Hid (p & Hp & Hpn). simpl.
  destruct (filter_nonempty (λ p, p_id p = n) (payments db) p Hp Hpn)
    as (row & rows & Hrows).
  split.
  - unfold delete_payments. rewrite Hid, Hrows. done.
  - pose proof (delete_payments_payments c id n db Hid) as Hpay.
    set (db1 := (delete_payments c id db).2) in *.
    assert (filter (λ p, p_id p = n) (payments db1) = []) as Hnone.
    { rewrite Hpay. apply filter_none. by intros q [? _]%list_elem_of_filter. }
    assert (filter (λ p, p_id p ≠ n) (payments db1) = payments db1) as Hsame.
    { rewrite Hpay. apply filter_all. by intros q [? _]%list_elem_of_filter. }
    unfold delete_payments. rewrite Hid, Hnone, Hsame. simpl.
    split; [done|]. unfold with_payments. apply store_eta.
Qed.

(** ** Students (routes/students) *)

Section StudentRequests.
Context `{Validators}.

Lemma student_create_body b :
  (run_rules student_create_rules b).1 = <["full_name" := trim (field b "full_name")]> b.
Proof. unfold student_create_rules. by rewrite !run_rules_body_cons. Qed.

Lemma student_update_body b :
  (run_rules student_update_rules b).1 = <["full_name" := trim (field b "full_name")]> b.
Proof. unfold student_update_rules. by rewrite !run_rules_body_cons. Qed.

Lemma student_create_passes b :
  passes student_create_rules b →
  isInt (field b "group_id") = true
  ∧ notEmpty (trim (field b "full_name")) = true
  ∧ isISO8601 (field b "join_date") = true.
Proof.
  unfold student_create_rules.
  intros (Hg & (Hn & (Hd & _)%passes_cons)%passes_cons)%passes_cons.
  cbn [sanitize rule_sanitize rule_check rule_field] in *.
  rewrite field_insert_eq in Hn. rewrite field_insert_ne in Hd by done. done.
Qed.

(** The handler after a chain that passed, a group id that the store
    accepts, and the group lookup. *)
Lemma post_students_unfold c b db gid :
  passes student_create_rules b →
  Text.int_in (field b "group_id") = Some gid →
  post_students c b db
  = match filter (λ g, g_id g = gid) (groups db) with
    | [] => (not_found "Group", db)
    | _ :: _ =>
        let s := Student (students_seq db) (Some gid) (trim (field b "full_name"))
                         (or_null (b !! "phone_number")) (or_null (b !! "parent_phone"))
                         (field b "join_date")
                         (or_default (b !! "payment_status") "unpaid")
                         (current_timestamp c) (current_timestamp c) in
        (Response 201 (Data (Some "Student created successfully") s),
         with_students db (students db ++ [s])%list (students_seq db + 1))
    end.
Proof.
  intros Hok Hgid. unfold post_students.
  rewrite (run_rules_passes _ _ Hok), student_create_body.
  simplify_fields. by rewrite Hgid.
Qed.

Lemma put_students_unfold c id n b db gid :
  passes student_update_rules b →
  Text.int_in id = Some n →
  nullable_int (b !! "group_id") = Some gid →
  let b' : body := <["full_name" := trim (field b "full_name")]> b in
  put_students c id b db
  = (match student_update c gid b' <$> filter (λ s, s_id s = n) (students db) with
     | [] => not_found "Student"
     | row :: _ => Response 200 (Data (Some "Student updated successfully") row)
     end,
     with_students db
       ((λ s, if decide (s_id s = n) then student_update c gid b' s else s) <$> students db)
       (students_seq db)).
Proof.
  intros Hok Hid Hgid. simpl. unfold put_students.
  rewrite (run_rules_passes _ _ Hok), student_update_body, Hid.
  simplify_fields. rewrite Hgid.
  by destruct (_ <$> filter _ (students db)).
Qed.

(** The handler when the store rejects the group id of a valid request. *)
Lemma post_students_rejected_id c b db :
  passes student_create_rules b →
  Text.int_in (field b "group_id") = None →
  post_students c b db = (server_error, db).
Proof.
  intros Hok Hgid. unfold post_students.
  rewrite (run_rules_passes _ _ Hok), student_create_body.
  simplify_fields. by rewrite Hgid.
Qed.

(** C4, as amended.  A student-creation request whose group id names no
    group row never changes the store.  When it fails validation the
    answer is 400 with the validation errors, of which there is at least
    one; when it passes validation and the store accepts the group id as
    an integer the answer is 404 "Group not found". *)
Theorem post_students_unknown_group (c : clock) (b : body) (db : store) :
  unknown_group b db →
  (post_students c b db).2 = db
  ∧ (¬ passes student_create_rules b →
     (post_students c b db).1
     = Response 400 (Errors (run_rules student_create_rules b).2)
     ∧ (run_rules student_create_rules b).2 ≠ [])
  ∧ (passes student_create_rules b →
     is_Some (Text.int_in (field b "group_id")) →
     (post_students c b db).1 = Response 404 (Message false "Group not found")).
Proof.
  intros Hunknown.
  destruct (decide (passes student_create_rules b)) as [Hok|Hbad].
  - destruct (Text.int_in (field b "group_id")) as [gid|] eqn:Hgid.
    + rewrite (post_students_unfold c b db gid Hok Hgid).
      rewrite (filter_none (λ g, g_id g = gid) (groups db)); [done|].
      intros g Hg Heq. apply (Hunknown g Hg). by rewrite Hgid, Heq.
    + rewrite (post_students_rejected_id c b db Hok Hgid).
      split; [done|]. split; [done|]. by intros _ [? ?].
  - destruct (run_rules_fails _ _ Hbad) as (e & es & Hrun).
    unfold post_students. rewrite Hrun. cbn [fst snd].
    split; [done|]. split; [done|]. done.
Qed.

End StudentRequests.

Section UnknownGroupExamples.
Import Demo.

(** C4, as the claim is worded, fails on a request that does not pass
    validation: group 999 does not exist and the name is missing, and the
    answer is 400 with the validation errors, not 404. *)
Lemma post_students_invalid_is_400 :
  let b : body := {[ "group_id" := "999"; "join_date" := "2024-01-01" ]} in
  unknown_group b Demo.db0
  ∧ (post_students Demo.now b Demo.db0).1
    = Response 400 (Errors [VError "full_name" "Full name is required"])
  ∧ (post_students Demo.now b Demo.db0).1 ≠ Response 404 (Message false "Group not found").
Proof.
  split; [|split].
  - intros g Hg. vm_compute in Hg.
    apply list_elem_of_In in Hg. destruct Hg as [<-|[<-|[]]]; by vm_compute.
  - by vm_compute.
  - by vm_compute.
Qed.

(** Group 999 does not exist: a complete request is answered 404, one
    without a name 400, and neither stores a row. *)
Lemma post_students_unknown_group_witness :
  let b : body :=
    {[ "group_id" := "999"; "full_name" := " Ali Valiev "; "join_date" := "2024-01-01" ]} in
  let b' : body := {[ "group_id" := "999"; "join_date" := "2024-01-01" ]} in
  unknown_group b Demo.db0
  ∧ unknown_group b' Demo.db0
  ∧ (post_students Demo.now b Demo.db0).2 = Demo.db0
  ∧ (post_students Demo.now b Demo.db0).1 = Response 404 (Message false "Group not found")
  ∧ (post_students Demo.now b' Demo.db0).2 = Demo.db0
  ∧ (post_students Demo.now b' Demo.db0).1
    = Response 400 (Errors [VError "full_name" "Full name is required"]).
Proof.
  cbv zeta.
  assert (unknown_group
            ({[ "group_id" := "999"; "full_name" := " Ali Valiev ";
                "join_date" := "2024-01-01" ]} : body) Demo.db0) as Hunknown.
  { intros g Hg. vm_compute in Hg.
    apply list_elem_of_In in Hg. destruct Hg as [<-|[<-|[]]]; by vm_compute. }
  assert (unknown_group
            ({[ "group_id" := "999"; "join_date" := "2024-01-01" ]} : body) Demo.db0)
    as Hunknown'.
  { intros g Hg. vm_compute in Hg.
    apply list_elem_of_In in Hg. destruct Hg as [<-|[<-|[]]]; by vm_compute. }
  destruct (post_students_unknown_group Demo.now _ Demo.db0 Hunknown)
    as (Hdb & _ & Hres).
  destruct (post_students_unknown_group Demo.now _ Demo.db0 Hunknown')
    as (Hdb' & Hres' & _).
  split; [exact Hunknown|]. split; [exact Hunknown'|].
  split; [exact Hdb|]. split; [apply Hres; [by vm_compute|by exists 999]|].
  split; [exact Hdb'|].
  destruct Hres' as [Hres' _]; [by vm_compute|].
  rewrite Hres'. by vm_compute.
Defined.

End UnknownGroupExamples.

Section ReconciliationExamples.
Import Demo.

(** Scenario A: student 1 is unpaid and has no payment; the clock reads
    March 2024 and the payment covers November 2023. *)
Lemma post_payments_sets_paid_witness :
  let b : body :=
    {[ "student_id" := "1"; "amount" := "300000"; "payment_month" := "2023-11";
       "payment_date" := "2023-11-20"; "payment_method" := "cash" ]} in
  s_payment_status s1 = "unpaid"
  ∧ filter (λ p, p_student_id p = 1) (payments db0) = []
  ∧ Text.slice0 7 (toISOString now) ≠ field b "payment_month"
  ∧ ∃ pay,
      (post_payments now b db0).1
      = Response 201 (Data (Some "Payment recorded successfully") pay)
      ∧ payments (post_payments now b db0).2 = (payments db0 ++ [pay])%list
      ∧ p_student_id pay = 1
      ∧ p_payment_month pay = field b "payment_month"
      ∧ students (post_payments now b db0).2
        = set_payment_status "paid" (current_timestamp now) 1 <$> students db0
      ∧ (∀ s, s ∈ students (post_payments now b db0).2 →
              s_id s = 1 → s_payment_status s = "paid")
      ∧ (∃ s, s ∈ students (post_payments now b db0).2 ∧ s_id s = 1).
Proof.
  simpl. split; [done|]. split; [by vm_compute|]. split; [by vm_compute|].
  apply (post_payments_sets_paid now _ db0 1).
  - by vm_compute.
  - by vm_compute.
  - exists s1. split; [|done]. apply list_elem_of_In. vm_compute. tauto.
Defined.

(** Scenario C: student 2 has two payments for March 2024; deleting one
    leaves the status as it was. *)
Lemma delete_payments_reconciles_witness :
  (delete_payments now "1" db0).1 = Response 200 (Message true "Payment deleted successfully")
  ∧ payments (delete_payments now "1" db0).2 = [p2; p3]
  ∧ students (delete_payments now "1" db0).2 = students db0.
Proof.
  assert (Text.int_in "1" = Some 1) as Hid by (by vm_compute).
  assert (head (payments_with 1 db0) = Some p1) as Hrow by (by vm_compute).
  destruct (delete_payments_reconciles now "1" 1 db0 p1 Hid Hrow) as (Hres & Hpay & _ & Hkeep).
  split; [exact Hres|]. split; [exact Hpay|].
  apply Hkeep. exists p2. split; [|by vm_compute].
  apply list_elem_of_In. vm_compute. tauto.
Defined.

(** Scenario B: one payment for March 2024 is the only one of the month;
    deleting it sets the status to unpaid. *)
Example delete_last_payment_of_month :
  let db := with_payments db0 [p2; p3] 4 in
  s_payment_status <$> students (delete_payments now "2" db).2 = ["unpaid"; "unpaid"].
Proof. by vm_compute. Qed.

Lemma delete_payments_twice_witness :
  let first := delete_payments now "3" db0 in
  let second := delete_payments now "3" first.2 in
  first.1 = Response 200 (Message true "Payment deleted successfully")
  ∧ second.1 = Response 404 (Message false "Payment not found")
  ∧ second.2 = first.2.
Proof.
  apply (delete_payments_twice now now "3" 3 db0).
  - by vm_compute.
  - exists p3. split; [|done]. apply list_elem_of_In. vm_compute. tauto.
Defined.

End ReconciliationExamples.

(** ** The status a student row is written with *)

(** C10.  On creation and on update the status column is written from the
    request: the supplied text when there is one, "unpaid" when the field
    is omitted.  Creation touches no payment row, so a student can be
    stored as paid without any payment; an update that omits the field
    sets a paid student back to unpaid. *)
Theorem student_status_from_request :
  (∀ (V : Validators) (c : clock) (b : body) (db : store) (gid : Z),
     passes student_create_rules b →
     Text.int_in (field b "group_id") = Some gid →
     (∃ g, g ∈ groups db ∧ g_id g = gid) →
     ∃ s,
       (post_students c b db).1
       = Response 201 (Data (Some "Student created successfully") s)
       ∧ students (post_students c b db).2 = (students db ++ [s])%list
       ∧ payments (post_students c b db).2 = payments db
       ∧ s_payment_status s = or_default (b !! "payment_status") "unpaid"
       ∧ (b !! "payment_status" = Some "paid" → s_payment_status s = "paid")
       ∧ (b !! "payment_status" = None → s_payment_status s = "unpaid"))
  ∧ (∃ (V : Validators) (c : clock) (b : body) (db : store) (s : student),
       b !! "payment_status" = Some "paid"
       ∧ (post_students c b db).1
         = Response 201 (Data (Some "Student created successfully") s)
       ∧ s ∈ students (post_students c b db).2
       ∧ s_payment_status s = "paid"
       ∧ filter (λ p, p_student_id p = s_id s) (payments (post_students c b db).2) = [])
  ∧ (∀ (V : Validators) (c : clock) (id : string) (n : Z) (b : body) (db : store)
       (gid : option Z),
       passes student_update_rules b →
       Text.int_in id = Some n →
       nullable_int (b !! "group_id") = Some gid →
       (∃ s, s ∈ students db ∧ s_id s = n ∧ s_payment_status s = "paid") →
       status (put_students c id b db).1 = 200%nat
       ∧ (∀ s, s ∈ students (put_students c id b db).2 → s_id s = n →
               s_payment_status s = or_default (b !! "payment_status") "unpaid")
       ∧ (b !! "payment_status" = None →
          ∀ s, s ∈ students (put_students c id b db).2 → s_id s = n →
               s_payment_status s = "unpaid")
       ∧ (∃ s, s ∈ students (put_students c id b db).2 ∧ s_id s = n)).
Proof.
  split; [|split].
  - intros V c b db gid Hok Hgid (g & Hg & Hgg).
    rewrite (post_students_unfold c b db gid Hok Hgid).
    destruct (filter_nonempty (λ g, g_id g = gid) (groups db) g Hg Hgg) as (y & ys & ->).
    eexists. simpl. repeat split.
    + by intros ->.
    + by intros ->.
  - exists Demo.validators, Demo.now,
      ({[ "group_id" := "2"; "full_name" := "Sardor"; "join_date" := "2024-03-01";
          "payment_status" := "paid" ]} : body),
      Demo.db0,
      (Student 3 (Some 2) "Sardor" None None "2024-03-01" "paid"
               (current_timestamp Demo.now) (current_timestamp Demo.now)).
    split; [by vm_compute|]. split; [by vm_compute|]. split; [|by vm_compute].
    apply list_elem_of_In. vm_compute. tauto.
  - intros V c id n b db gid Hok Hid Hgid (s & Hs & Hsn & _).
    rewrite (put_students_unfold c id n b db gid Hok Hid Hgid). simpl.
    destruct (filter_nonempty (λ s, s_id s = n) (students db) s Hs Hsn) as (y & ys & ->).
    assert (∀ s', s' ∈ (λ s0, if decide (s_id s0 = n)
                              then student_update c gid
                                     (<["full_name" := trim (field b "full_name")]> b) s0
                              else s0) <$> students db →
                  s_id s' = n →
                  s_payment_status s' = or_default (b !! "payment_status") "unpaid") as Hall.
    { intros s' (s0 & -> & Hs0)%list_elem_of_fmap Hid'.
      destruct (decide (s_id s0 = n)) as [_|Hne]; [|done].
      simpl. by simplify_fields. }
    split; [done|]. split; [exact Hall|]. split.
    + intros Hnone s' Hs' Hid'. rewrite (Hall s' Hs' Hid'), Hnone. done.
    + exists (student_update c gid (<["full_name" := trim (field b "full_name")]> b) s).
      split; [|done]. apply list_elem_of_fmap. exists s. by rewrite decide_True.
Qed.

Section StudentStatusExamples.
Import Demo.

(** Student 2 is paid; an update that leaves the status out resets it. *)
Lemma student_status_from_request_witness :
  let b : body := {[ "group_id" := "1"; "full_name" := "Vali Aliev";
                     "join_date" := "2024-01-11" ]} in
  s_payment_status s2 = "paid"
  ∧ status (put_students now "2" b db0).1 = 200%nat
  ∧ ∀ s, s ∈ students (put_students now "2" b db0).2 → s_id s = 2 →
         s_payment_status s = "unpaid".
Proof.
  simpl. split; [done|].
  destruct student_status_from_request as (_ & _ & Hupdate).
  destruct (Hupdate validators now "2" 2
              ({[ "group_id" := "1"; "full_name" := "Vali Aliev";
                  "join_date" := "2024-01-11" ]} : body) db0 (Some 1))
    as (Hstatus & _ & Hreset & _).
  - by vm_compute.
  - by vm_compute.
  - by vm_compute.
  - exists s2. split; [|done]. apply list_elem_of_In. vm_compute. tauto.
  - split; [exact Hstatus|]. apply Hreset. by vm_compute.
Defined.

End StudentStatusExamples.

(** ** Expenses (routes/expenses) *)

Section ExpenseRequests.
Context `{Validators}.

Lemma expense_rules_body b :
  (run_rules expense_rules b).1 = <["title" := trim (field b "title")]> b.
Proof. unfold expense_rules. by rewrite !run_rules_body_cons. Qed.

(** A field the chain does not name has no influence on its verdict. *)
Lemma expense_rules_other_field b k v :
  k ≠ "title" → k ≠ "amount" → k ≠ "expense_date" →
  (run_rules expense_rules (<[k := v]> b)).2 = (run_rules expense_rules b).2.
Proof.
  intros Ht Ha Hd. unfold expense_rules. rewrite !run_rules_cons.
  cbn [sanitize rule_sanitize rule_check rule_field rule_msg fst snd run_rules].
  by simplify_fields.
Qed.

Lemma post_expenses_unfold c b db :
  passes expense_rules b →
  post_expenses c b db
  = let e := Expense (expenses_seq db) (trim (field b "title")) (field b "amount")
                     (or_null (b !! "category")) (field b "expense_date")
                     (Text.slice0 7 (field b "expense_date"))
                     (or_null (b !! "notes")) (current_timestamp c) in
    (Response 201 (Data (Some "Expense created successfully") e),
     with_expenses db (expenses db ++ [e])%list (expenses_seq db + 1)).
Proof.
  intros Hok. unfold post_expenses.
  rewrite (run_rules_passes _ _ Hok), expense_rules_body. by simplify_fields.
Qed.

Lemma post_expenses_invalid c b db :
  ¬ passes expense_rules b → (post_expenses c b db).2 = db.
Proof.
  intros (e & es & Hrun)%run_rules_fails. unfold post_expenses. by rewrite Hrun.
Qed.

Lemma put_expenses_unfold id n b db :
  passes expense_rules b →
  Text.int_in id = Some n →
  let b' : body := <["title" := trim (field b "title")]> b in
  put_expenses id b db
  = (match expense_update b' <$> filter (λ e, e_id e = n) (expenses db) with
     | [] => not_found "Expense"
     | row :: _ => Response 200 (Data (Some "Expense updated successfully") row)
     end,
     with_expenses db
       ((λ e, if decide (e_id e = n) then expense_update b' e else e) <$> expenses db)
       (expenses_seq db)).
Proof.
  intros Hok Hid. simpl. unfold put_expenses.
  rewrite (run_rules_passes _ _ Hok), expense_rules_body, Hid.
  by destruct (_ <$> filter _ (expenses db)).
Qed.

Lemma put_expenses_invalid id b db :
  ¬ passes expense_rules b ∨ Text.int_in id = None → (put_expenses id b db).2 = db.
Proof.
  unfold put_expenses. intros [(e & es & Hrun)%run_rules_fails | Hid].
  - by rewrite Hrun.
  - destruct (run_rules expense_rules b) as [b' [|e es]]; [|done]. by rewrite Hid.
Qed.

Lemma post_expenses_in_sync c b db :
  month_in_sync db → month_in_sync (post_expenses c b db).2.
Proof.
  intros Hsync. destruct (decide (passes expense_rules b)) as [Hok|Hbad].
  - rewrite (post_expenses_unfold c b db Hok). simpl.
    intros e [He| ->%list_elem_of_singleton]%elem_of_app; [by apply Hsync|done].
  - by rewrite post_expenses_invalid.
Qed.

Lemma put_expenses_in_sync id b db :
  month_in_sync db → month_in_sync (put_expenses id b db).2.
Proof.
  intros Hsync. destruct (decide (passes expense_rules b)) as [Hok|Hbad].
  - destruct (Text.int_in id) as [n|] eqn:Hid.
    + rewrite (put_expenses_unfold id n b db Hok Hid). simpl.
      intros e (e0 & -> & He0)%list_elem_of_fmap.
      destruct (decide (e_id e0 = n)); [done|by apply Hsync].
    + rewrite put_expenses_invalid by by right. done.
  - rewrite put_expenses_invalid by by left. done.
Qed.

Lemma delete_expenses_in_sync id db :
  month_in_sync db → month_in_sync (delete_expenses id db).2.
Proof.
  intros Hsync. unfold delete_expenses.
  destruct (Text.int_in id) as [n|]; [|done].
  assert (month_in_sync (with_expenses db (filter (λ e, e_id e ≠ n) (expenses db))
                                       (expenses_seq db))) as Hdel.
  { intros e [_ He]%list_elem_of_filter. by apply Hsync. }
  by destruct (filter (λ e, e_id e = n) (expenses db)).
Qed.

(** Creation and update store the first seven characters of the
    request's expense_date as expense_month; an expense_month field in the
    request is not read; and agreement of the two columns on every row is
    kept by each of the three expense routes, whatever the request. *)
Lemma expense_month_from_date :
  (∀ c b db,
     passes expense_rules b →
     ∃ e, (post_expenses c b db).1
          = Response 201 (Data (Some "Expense created successfully") e)
          ∧ expenses (post_expenses c b db).2 = (expenses db ++ [e])%list
          ∧ e_expense_date e = field b "expense_date"
          ∧ e_expense_month e = Text.slice0 7 (field b "expense_date"))
  ∧ (∀ id n b db,
       passes expense_rules b →
       Text.int_in id = Some n →
       ∀ e, e ∈ expenses (put_expenses id b db).2 → e_id e = n →
            e_expense_date e = field b "expense_date"
            ∧ e_expense_month e = Text.slice0 7 (field b "expense_date"))
  ∧ (∀ c id b db m,
       post_expenses c (<["expense_month" := m]> b) db = post_expenses c b db
       ∧ put_expenses id (<["expense_month" := m]> b) db = put_expenses id b db)
  ∧ (∀ c id b db,
       month_in_sync db →
       month_in_sync (post_expenses c b db).2
       ∧ month_in_sync (put_expenses id b db).2
       ∧ month_in_sync (delete_expenses id db).2).
Proof.
  split; [|split; [|split]].
  - intros c b db Hok. rewrite (post_expenses_unfold c b db Hok). by eexists.
  - intros id n b db Hok Hid e.
    rewrite (put_expenses_unfold id n b db Hok Hid). simpl.
    intros (e0 & -> & He0)%list_elem_of_fmap Hn.
    destruct (decide (e_id e0 = n)); [|done].
    simpl. by simplify_fields.
  - intros c id b db m.
    pose proof (expense_rules_other_field b "expense_month" m) as Herrs.
    pose proof (expense_rules_body (<["expense_month" := m]> b)) as Hb1.
    pose proof (expense_rules_body b) as Hb0.
    unfold post_expenses, put_expenses.
    destruct (run_rules expense_rules (<["expense_month" := m]> b)) as [b1 errs1].
    destruct (run_rules expense_rules b) as [b0 errs0].
    simpl in *. rewrite Herrs, Hb1, Hb0 by done.
    unfold expense_update. by simplify_fields.
  - intros c id b db Hsync.
    auto using post_expenses_in_sync, put_expenses_in_sync, delete_expenses_in_sync.
Qed.

(** C7.  The month column is cut from the text of the date as sent, not
    from the date: the date 20240315, when the chain accepts it, is
    stored on creation with the month 2024031, and on update every row
    with the id, of which there is one, gets that month; 2024031 is no
    YYYY-MM and is not the month 2024-03 of the date. *)
Theorem expense_month_of_compact_date (c : clock) (b : body) (db : store) :
  passes expense_rules b →
  field b "expense_date" = "20240315" →
  (∃ e, (post_expenses c b db).1
        = Response 201 (Data (Some "Expense created successfully") e)
        ∧ e ∈ expenses (post_expenses c b db).2
        ∧ e_expense_date e = "20240315"
        ∧ e_expense_month e = "2024031"
        ∧ Text.matches_yyyy_mm (e_expense_month e) = false
        ∧ e_expense_month e ≠ "2024-03")
  ∧ (∀ id n, Text.int_in id = Some n →
             (∃ old, old ∈ expenses db ∧ e_id old = n) →
             status (put_expenses id b db).1 = 200%nat
             ∧ (∃ e, e ∈ expenses (put_expenses id b db).2 ∧ e_id e = n)
             ∧ ∀ e, e ∈ expenses (put_expenses id b db).2 → e_id e = n →
                    e_expense_date e = "20240315" ∧ e_expense_month e = "2024031").
Proof.
  intros Hok Hdate. split.
  - rewrite (post_expenses_unfold c b db Hok). cbn zeta. cbn [fst snd].
    eexists. split; [reflexivity|]. rewrite Hdate.
    split; [apply elem_of_app; right; left|]. done.
  - intros id n Hid (old & Hold & Hn).
    rewrite (put_expenses_unfold id n b db Hok Hid). cbn [fst snd expenses with_expenses].
    destruct (filter_nonempty (λ e, e_id e = n) (expenses db) old Hold Hn)
      as (e0 & rest & ->).
    split; [done|]. split.
    + exists (expense_update (<["title" := trim (field b "title")]> b) old).
      split; [|done]. apply list_elem_of_fmap. exists old.
      by rewrite decide_True.
    + intros e (e1 & -> & He1)%list_elem_of_fmap Hen.
      destruct (decide (e_id e1 = n)); [|done].
      unfold expense_update. cbn [e_expense_date e_expense_month].
      simplify_fields. by rewrite Hdate.
Qed.

End ExpenseRequests.

Section ExpenseExamples.
Import Demo.

(** The round trip of the specification: created on 2024-03-15, then moved
    to 2024-04-01; the request's own expense_month is of no effect. *)
Lemma expense_month_from_date_witness :
  let b1 : body := {[ "title" := "Chalk"; "amount" := "50000"; "expense_date" := "2024-03-15";
                      "expense_month" := "1999-01" ]} in
  let b2 : body := {[ "title" := "Chalk"; "amount" := "50000";
                      "expense_date" := "2024-04-01" ]} in
  let db1 := (post_expenses now b1 db0).2 in
  (∃ e, expenses db1 = [e1; e] ∧ e_id e = 2 ∧ e_expense_month e = "2024-03")
  ∧ (∀ e, e ∈ expenses (put_expenses "2" b2 db1).2 → e_id e = 2 →
          e_expense_date e = "2024-04-01" ∧ e_expense_month e = "2024-04").
Proof.
  simpl. destruct (expense_month_from_date (H := validators)) as (Hcreate & Hupdate & _ & _).
  split.
  - destruct (Hcreate now
                ({[ "title" := "Chalk"; "amount" := "50000"; "expense_date" := "2024-03-15";
                    "expense_month" := "1999-01" ]} : body) db0)
      as (e & Hres & Hrows & _ & Hmonth); [by vm_compute|].
    exists e. split; [exact Hrows|]. split; [|exact Hmonth].
    vm_compute in Hres. by injection Hres as <-.
  - intros e He Hn.
    assert (passes expense_rules
              ({[ "title" := "Chalk"; "amount" := "50000";
                  "expense_date" := "2024-04-01" ]} : body)) as Hok by (by vm_compute).
    exact (Hupdate "2" 2 _ _ Hok eq_refl e He Hn).
Defined.

(** The fifteenth of March 2024, written without hyphens. *)
Lemma expense_month_of_compact_date_witness :
  let b : body := {[ "title" := "Chalk"; "amount" := "50000"; "expense_date" := "20240315" ]} in
  passes expense_rules b
  ∧ (∃ e, (post_expenses now b db0).1
          = Response 201 (Data (Some "Expense created successfully") e)
          ∧ e ∈ expenses (post_expenses now b db0).2
          ∧ e_expense_date e = "20240315"
          ∧ e_expense_month e = "2024031"
          ∧ Text.matches_yyyy_mm (e_expense_month e) = false
          ∧ e_expense_month e ≠ "2024-03")
  ∧ expenses (put_expenses "1" b db0).2
    = [Expense 1 "Chalk" "50000" None "20240315" "2024031" None "t1"].
Proof.
  cbv zeta.
  set (b := ({[ "title" := "Chalk"; "amount" := "50000"; "expense_date" := "20240315" ]}
             : body)).
  assert (passes expense_rules b) as Hok by (by vm_compute).
  destruct (expense_month_of_compact_date now b db0 Hok eq_refl) as [Hcreate _].
  split; [exact Hok|]. split; [exact Hcreate|]. by vm_compute.
Defined.

End ExpenseExamples.

(** ** Full-row replacement (PUT on expenses, groups, students) *)

Section Replace.
Context `{Validators}.










End Replace.

Section ReplaceExamples.
Import Demo.



End ReplaceExamples.

(** ** Login (routes/auth) *)

Section Login.
Context `{Validators} `{Crypto}.

Lemma login_rules_body b :
  (run_rules login_rules b).1 = <["username" := trim (field b "username")]> b.
Proof. unfold login_rules. by rewrite !run_rules_body_cons. Qed.

Lemma pool_login_rules_body b : (run_rules pool_login_rules b).1 = b.
Proof. unfold pool_login_rules. by rewrite !run_rules_body_cons. Qed.

Lemma to_text_JString (b : body) : to_text <$> (JString <$> b) = b.
Proof.
  apply map_eq. intros k. rewrite !lookup_fmap. by destruct (b !! k).
Qed.

Lemma login_passes b :
  passes login_rules b →
  notEmpty (trim (field b "username")) = true ∧ notEmpty (field b "password") = true.
Proof.
  unfold login_rules. intros (Hu & (Hp & _)%passes_cons)%passes_cons.
  cbn [sanitize rule_sanitize rule_check rule_field] in *.
  rewrite field_insert_eq in Hu. rewrite field_insert_ne in Hp by done. done.
Qed.

Lemma pool_login_passes b :
  passes pool_login_rules b →
  notEmpty (field b "username") = true ∧ notEmpty (field b "password") = true.
Proof.
  unfold pool_login_rules. intros (Hu & (Hp & _)%passes_cons)%passes_cons.
  cbn [sanitize rule_sanitize rule_check rule_field] in *. done.
Qed.

(** A field that passed [notEmpty()] is present. *)
Lemma notEmpty_lookup (b : body) k :
  notEmpty (field b k) = true → b !! k = Some (field b k).
Proof. unfold field. by destruct (b !! k). Qed.

Lemma post_login_invalid b db :
  ¬ passes login_rules b → post_login b db = bad_request (run_rules login_rules b).2.
Proof.
  intros (e & es & Hrun)%run_rules_fails.
  unfold post_login, post_login_json. rewrite to_text_JString. by rewrite Hrun.
Qed.

Lemma pool_post_login_invalid b db :
  ¬ passes pool_login_rules b →
  pool_post_login b db = bad_request (run_rules pool_login_rules b).2.
Proof.
  intros (e & es & Hrun)%run_rules_fails.
  unfold pool_post_login, pool_post_login_json. rewrite to_text_JString. by rewrite Hrun.
Qed.

Lemma post_login_unfold b db :
  passes login_rules b →
  post_login b db
  = match filter (λ a, a_username a = trim (field b "username")) (admins db) with
    | [] => Response 401 (Message false "Invalid credentials")
    | admin :: _ =>
        if negb (bcrypt_compare (field b "password") (a_password admin))
        then Response 401 (Message false "Invalid credentials")
        else Response 200
               (Data (Some "Login successful")
                     (LoginData (generateToken admin) (a_id admin)
                                (a_username admin) (a_email admin)))
    end.
Proof.
  intros Hok. unfold post_login, post_login_json. rewrite to_text_JString.
  rewrite (run_rules_passes _ _ Hok), login_rules_body. simplify_fields.
  destruct (login_passes b Hok) as [_ Hp].
  by rewrite lookup_fmap, (notEmpty_lookup b "password" Hp).
Qed.

Lemma pool_post_login_unfold b db :
  passes pool_login_rules b →
  pool_post_login b db
  = match filter (λ a, a_username a = field b "username") (admins db) with
    | [] => Response 401 (Message false "Invalid credentials")
    | admin :: _ =>
        if negb (bcrypt_compare (field b "password") (a_password admin))
        then Response 401 (Message false "Invalid credentials")
        else Response 200
               (Data None
                     (LoginData (jwt_sign (a_id admin) (a_username admin)) (a_id admin)
                                (a_username admin) (a_email admin)))
    end.
Proof.
  intros Hok. unfold pool_post_login, pool_post_login_json. rewrite to_text_JString.
  rewrite (run_rules_passes _ _ Hok), pool_login_rules_body.
  destruct (pool_login_passes b Hok) as [_ Hp].
  by rewrite lookup_fmap, (notEmpty_lookup b "password" Hp).
Qed.

(** On bodies of strings.  Of two login requests that pass validation,
    one naming no stored admin and one naming an admin whose stored hash
    the password does not match, both are answered 401 "Invalid
    credentials": the two responses are equal, in either router. *)
Lemma login_failures_indistinguishable (db : store) (b1 b2 : body) (a : admin) :
  (passes login_rules b1 → passes login_rules b2 →
   (∀ a', a' ∈ admins db → a_username a' ≠ trim (field b1 "username")) →
   head (filter (λ a', a_username a' = trim (field b2 "username")) (admins db)) = Some a →
   bcrypt_compare (field b2 "password") (a_password a) = false →
   post_login b1 db = Response 401 (Message false "Invalid credentials")
   ∧ post_login b2 db = post_login b1 db)
  ∧ (passes pool_login_rules b1 → passes pool_login_rules b2 →
     (∀ a', a' ∈ admins db → a_username a' ≠ field b1 "username") →
     head (filter (λ a', a_username a' = field b2 "username") (admins db)) = Some a →
     bcrypt_compare (field b2 "password") (a_password a) = false →
     pool_post_login b1 db = Response 401 (Message false "Invalid credentials")
     ∧ pool_post_login b2 db = pool_post_login b1 db).
Proof.
  split.
  - intros Hok1 Hok2 Habsent Hfound Hmismatch.
    rewrite (post_login_unfold b1 db Hok1), (post_login_unfold b2 db Hok2).
    rewrite (filter_none _ (admins db) Habsent).
    destruct (filter _ (admins db)) as [|a0 rest]; [done|].
    simpl in Hfound. injection Hfound as ->. by rewrite Hmismatch.
  - intros Hok1 Hok2 Habsent Hfound Hmismatch.
    rewrite (pool_post_login_unfold b1 db Hok1), (pool_post_login_unfold b2 db Hok2).
    rewrite (filter_none _ (admins db) Habsent).
    destruct (filter _ (admins db)) as [|a0 rest]; [done|].
    simpl in Hfound. injection Hfound as ->. by rewrite Hmismatch.
Qed.

(** C9.  A password that is not a string tells a stored username from an
    unknown one.  Such a request passes [notEmpty()] whenever its text is
    not empty; when no admin carries the username it is answered 401
    "Invalid credentials", and when an admin does, the comparison throws
    and it is answered 500 "Server error", in either router. *)
Theorem login_failures_differ_on_nonstring_password (req : json_body) (db : store)
    (pw : jvalue) :
  req !! "password" = Some pw →
  (∀ s, pw ≠ JString s) →
  (passes login_rules (to_text <$> req) →
   let username := trim (field (to_text <$> req) "username") in
   ((∀ a, a ∈ admins db → a_username a ≠ username) →
    post_login_json req db = Response 401 (Message false "Invalid credentials"))
   ∧ ((∃ a, a ∈ admins db ∧ a_username a = username) →
      post_login_json req db = Response 500 (Message false "Server error")))
  ∧ (passes pool_login_rules (to_text <$> req) →
     let username := field (to_text <$> req) "username" in
     ((∀ a, a ∈ admins db → a_username a ≠ username) →
      pool_post_login_json req db = Response 401 (Message false "Invalid credentials"))
     ∧ ((∃ a, a ∈ admins db ∧ a_username a = username) →
        pool_post_login_json req db = Response 500 (Message false "Server error"))).
Proof.
  intros Hpw Hkind. split.
  - intros Hok. cbn zeta. unfold post_login_json.
    rewrite (run_rules_passes _ _ Hok), login_rules_body. simplify_fields.
    rewrite Hpw. split.
    + intros Habsent. by rewrite (filter_none _ (admins db) Habsent).
    + intros (a & Ha & Hname).
      destruct (filter_nonempty (λ a', a_username a' = trim (field (to_text <$> req) "username"))
                                (admins db) a Ha Hname) as (a0 & rest & ->).
      destruct pw as [s| | |]; [by destruct (Hkind s)|done..].
  - intros Hok. cbn zeta. unfold pool_post_login_json.
    rewrite (run_rules_passes _ _ Hok), pool_login_rules_body.
    rewrite Hpw. split.
    + intros Habsent. by rewrite (filter_none _ (admins db) Habsent).
    + intros (a & Ha & Hname).
      destruct (filter_nonempty (λ a', a_username a' = field (to_text <$> req) "username")
                                (admins db) a Ha Hname) as (a0 & rest & ->).
      destruct pw as [s| | |]; [by destruct (Hkind s)|done..].
Qed.

End Login.

Section LoginExamples.
Import Demo.

Lemma login_failures_indistinguishable_witness :
  let unknown : body := {[ "username" := "nobody"; "password" := "secret" ]} in
  let wrong : body := {[ "username" := "root"; "password" := "guess" ]} in
  let right : body := {[ "username" := "root"; "password" := "secret" ]} in
  status (post_login right db0) = 200%nat
  ∧ post_login unknown db0 = Response 401 (Message false "Invalid credentials")
  ∧ post_login wrong db0 = post_login unknown db0
  ∧ pool_post_login unknown db0 = Response 401 (Message false "Invalid credentials")
  ∧ pool_post_login wrong db0 = pool_post_login unknown db0.
Proof.
  simpl. split; [by vm_compute|].
  destruct (login_failures_indistinguishable (H := validators) (H0 := crypto) db0
              ({[ "username" := "nobody"; "password" := "secret" ]} : body)
              ({[ "username" := "root"; "password" := "guess" ]} : body) root)
    as [Hquery Hpool].
  assert (∀ a', a' ∈ admins db0 → a_username a' ≠ "nobody") as Habsent.
  { intros a' Ha'. apply list_elem_of_In in Ha'. vm_compute in Ha'.
    destruct Ha' as [<-|[]]. by vm_compute. }
  destruct Hquery as [H1 H2]; [by vm_compute|by vm_compute|exact Habsent|
                               by vm_compute|by vm_compute|].
  destruct Hpool as [H3 H4]; [by vm_compute|by vm_compute|exact Habsent|
                              by vm_compute|by vm_compute|].
  auto.
Defined.

(** The password 123456 sent as a number: 500 for the stored username
    root, 401 for the unknown username nobody. *)
Lemma login_failures_differ_on_nonstring_password_witness :
  let stored : json_body := {[ "username" := JString "root"; "password" := JNumber "123456" ]} in
  let unknown : json_body :=
    {[ "username" := JString "nobody"; "password" := JNumber "123456" ]} in
  passes login_rules (to_text <$> stored)
  ∧ passes login_rules (to_text <$> unknown)
  ∧ post_login_json stored db0 = Response 500 (Message false "Server error")
  ∧ post_login_json unknown db0 = Response 401 (Message false "Invalid credentials")
  ∧ pool_post_login_json stored db0 = Response 500 (Message false "Server error")
  ∧ pool_post_login_json unknown db0 = Response 401 (Message false "Invalid credentials")
  ∧ post_login_json stored db0 ≠ post_login_json unknown db0.
Proof.
  cbv zeta.
  set (stored := ({[ "username" := JString "root"; "password" := JNumber "123456" ]}
                  : json_body)).
  set (unknown := ({[ "username" := JString "nobody"; "password" := JNumber "123456" ]}
                   : json_body)).
  assert (∀ s, JNumber "123456" ≠ JString s) as Hkind by done.
  assert (∀ a, a ∈ admins db0 → a_username a ≠ "nobody") as Habsent.
  { intros a Ha. apply list_elem_of_In in Ha. vm_compute in Ha.
    destruct Ha as [<-|[]]. by vm_compute. }
  assert (∃ a, a ∈ admins db0 ∧ a_username a = "root") as Hfound.
  { exists root. split; [|done]. apply list_elem_of_In. vm_compute. tauto. }
  assert (passes login_rules (to_text <$> stored)) as Hok1 by (by vm_compute).
  assert (passes login_rules (to_text <$> unknown)) as Hok2 by (by vm_compute).
  destruct (login_failures_differ_on_nonstring_password stored db0 (JNumber "123456")
              eq_refl Hkind) as [Hquery Hpool].
  destruct (login_failures_differ_on_nonstring_password unknown db0 (JNumber "123456")
              eq_refl Hkind) as [Hquery' Hpool'].
  destruct (Hquery Hok1) as [_ H1]. destruct (Hquery' Hok2) as [H2 _].
  destruct Hpool as [_ H3]; [by vm_compute|].
  destruct Hpool' as [H4 _]; [by vm_compute|].
  assert (post_login_json stored db0 = Response 500 (Message false "Server error")) as E1
    by (apply H1; exact Hfound).
  assert (post_login_json unknown db0 = Response 401 (Message false "Invalid credentials"))
    as E2 by (apply H2; exact Habsent).
  split; [exact Hok1|]. split; [exact Hok2|]. split; [exact E1|]. split; [exact E2|].
  split; [apply H3; exact Hfound|]. split; [apply H4; exact Habsent|].
  rewrite E1, E2. done.
Defined.

End LoginExamples.

(** ** Monthly chart (routes/dashboard) *)

Lemma padStart2_calendar : Text.padStart2 <$> seq 1 12 = calendar.
Proof. by vm_compute. Qed.

Section MonthlyChartFacts.
Context `{Arith}.

(** A grouped query returns only months that occur in the table. *)
Lemma monthly_totals_months pattern rows m :
  m ∈ (monthly_totals pattern rows).*1 → m ∈ rows.*1.
Proof.
  unfold monthly_totals.
  rewrite <- list_fmap_compose.
  intros (k & -> & Hk)%list_elem_of_fmap. simpl.
  rewrite merge_sort_Permutation, elem_of_remove_dups in Hk.
  apply list_elem_of_fmap in Hk as (r & -> & Hr).
  apply list_elem_of_filter in Hr as [_ Hr].
  apply list_elem_of_fmap. by exists r.
Qed.

Lemma find_month_absent pattern rows m :
  m ∉ rows.*1 →
  List.find (λ r, bool_decide (r.1 = m)) (monthly_totals pattern rows) = None.
Proof.
  intros Hm.
  destruct (List.find _ _) as [r|] eqn:Hfind; [|done].
  apply List.find_some in Hfind as [Hin Hr%bool_decide_eq_true].
  destruct Hm. apply (monthly_totals_months pattern). subst m.
  apply list_elem_of_fmap. exists r. split; [done|]. by apply list_elem_of_In.
Qed.

(** C5.  For every year parameter (or none) and every store, the monthly
    chart answers 200 with twelve rows, labelled year-01 to year-12 in
    that order; each row's profit is its income minus its expenses; a
    month that no payment row and no expense row carries shows income 0,
    expenses 0 and profit 0. *)
Theorem monthly_chart_twelve_months (c : clock) (q : body) (db : store) :
  ∃ months,
    get_monthly_chart c q db = Response 200 (Data None months)
    ∧ length months = 12%nat
    ∧ month <$> months
      = (λ mm, or_default (q !! "year") (getFullYear c) +:+ "-" +:+ mm) <$> calendar
    ∧ (∀ r, r ∈ months → profit r = sub (income r) (expenses_total r))
    ∧ (∀ r, r ∈ months →
         (∀ p, p ∈ payments db → p_payment_month p ≠ month r) → income r = zero)
    ∧ (∀ r, r ∈ months →
         (∀ e, e ∈ expenses db → e_expense_month e ≠ month r) → expenses_total r = zero)
    ∧ (∀ r, r ∈ months →
         (∀ p, p ∈ payments db → p_payment_month p ≠ month r) →
         (∀ e, e ∈ expenses db → e_expense_month e ≠ month r) →
         income r = zero ∧ expenses_total r = zero ∧ profit r = zero).
Proof.
  eexists. split; [reflexivity|].
  set (year := or_default (q !! "year") (getFullYear c)).
  assert (∀ (p_rows : list (string * string)) m,
            (∀ x, x ∈ p_rows → x.1 ≠ m) → m ∉ p_rows.*1) as Hfresh.
  { intros rows m Hrows (x & -> & Hx)%list_elem_of_fmap. by apply (Hrows x). }
  assert (∀ r, r ∈ (λ i : nat,
                      let month := year +:+ "-" +:+ Text.padStart2 i in
                      let incomeData :=
                        List.find (λ r, bool_decide (r.1 = month))
                          (monthly_totals (year +:+ "%")
                             ((λ p, (p_payment_month p, p_amount p)) <$> payments db)) in
                      let expenseData :=
                        List.find (λ r, bool_decide (r.1 = month))
                          (monthly_totals (year +:+ "%")
                             ((λ e, (e_expense_month e, e_amount e)) <$> expenses db)) in
                      ChartRow month
                        (match incomeData with Some r => parseFloat r.2 | None => zero end)
                        (match expenseData with Some r => parseFloat r.2 | None => zero end)
                        (sub (match incomeData with Some r => parseFloat r.2 | None => zero end)
                             (match expenseData with Some r => parseFloat r.2 | None => zero end)))
                   <$> seq 1 12 →
            profit r = sub (income r) (expenses_total r)
            ∧ ((∀ p, p ∈ payments db → p_payment_month p ≠ month r) → income r = zero)
            ∧ ((∀ e, e ∈ expenses db → e_expense_month e ≠ month r) →
               expenses_total r = zero)) as Hrow.
  { intros r (i & -> & _)%list_elem_of_fmap. cbn zeta. simpl.
    split; [done|]. split.
    - intros Hnone. rewrite find_month_absent; [done|].
      apply Hfresh. intros x (p & -> & Hp)%list_elem_of_fmap. by apply Hnone.
    - intros Hnone. rewrite find_month_absent; [done|].
      apply Hfresh. intros x (e & -> & He)%list_elem_of_fmap. by apply Hnone. }
  split; [by rewrite length_fmap, length_seq|].
  split.
  { rewrite <- padStart2_calendar, <- !list_fmap_compose. done. }
  split; [intros r Hr; by apply Hrow|].
  split; [intros r Hr; by apply Hrow|].
  split; [intros r Hr; by apply Hrow|].
  intros r Hr Hp He.
  destruct (Hrow r Hr) as (Hprofit & Hincome & Hexpenses).
  rewrite Hprofit, (Hincome Hp), (Hexpenses He). auto using sub_zero_zero.
Qed.

End MonthlyChartFacts.

Section MonthlyChartExamples.
Import Demo.

Example monthly_chart_2024 :
  get_monthly_chart now ({[ "year" := "2024" ]} : body) db0
  = Response 200
      (Data None
         [ ChartRow "2024-01" 0 0 0; ChartRow "2024-02" 300000 0 300000;
           ChartRow "2024-03" 600000 1000000 (-400000); ChartRow "2024-04" 0 0 0;
           ChartRow "2024-05" 0 0 0; ChartRow "2024-06" 0 0 0;
           ChartRow "2024-07" 0 0 0; ChartRow "2024-08" 0 0 0;
           ChartRow "2024-09" 0 0 0; ChartRow "2024-10" 0 0 0;
           ChartRow "2024-11" 0 0 0; ChartRow "2024-12" 0 0 0 ]).
Proof. reflexivity. Qed.

(** No year in the query: the year of the clock; a year without rows. *)
Lemma monthly_chart_twelve_months_witness :
  ∃ months,
    get_monthly_chart (Clock "2031-01-01T00:00:00.000Z" "2031" "2031-01-01") ∅ db0
    = Response 200 (Data None months)
    ∧ length months = 12%nat
    ∧ ∀ r, r ∈ months → income r = 0 ∧ expenses_total r = 0 ∧ profit r = 0.
Proof.
  destruct (monthly_chart_twelve_months
              (Clock "2031-01-01T00:00:00.000Z" "2031" "2031-01-01") ∅ db0)
    as (months & Hres & Hlen & Hlabels & _ & _ & _ & Hzero).
  exists months. split; [exact Hres|]. split; [exact Hlen|].
  intros r Hr.
  assert (month r ∈ month <$> months) as Hm by (apply list_elem_of_fmap; by exists r).
  rewrite Hlabels in Hm.
  apply list_elem_of_fmap in Hm as (mm & Hm & _).
  assert (String.get 2 (month r) = Some "3"%char) as Hdecade by (by rewrite Hm).
  apply (Hzero r Hr).
  - intros p Hp Heq. rewrite <- Heq in Hdecade.
    apply list_elem_of_In in Hp. vm_compute in Hp.
    destruct Hp as [<-|[<-|[<-|[]]]]; discriminate Hdecade.
  - intros e He Heq. rewrite <- Heq in Hdecade.
    apply list_elem_of_In in He. vm_compute in He.
    destruct He as [<-|[]]; discriminate Hdecade.
Defined.

End MonthlyChartExamples.

(** ** Top groups (routes/dashboard) *)

Section TopGroupsFacts.
Import TopGroups.
Local Open Scope Q_scope.

Lemma hundredths (k : Z) : k # 100 == inject_Z k * (1 # 100).
Proof. unfold Qeq. simpl. lia. Qed.

(** Rounding to two decimals yields a whole number of hundredths, at most
    half a hundredth away. *)
Lemma round2_spec (x : Q) :
  (∃ k : Z, round2 x = k # 100) ∧ Qabs (round2 x - x) <= 1 # 200.
Proof.
  split; [by eexists|].
  unfold round2. apply Qabs_Qle_condition.
  destruct (Qle_bool 0 x).
  - pose proof (Qfloor_le (x * 100 + (1 # 2))) as Hlo.
    pose proof (Qlt_floor (x * 100 + (1 # 2))) as Hhi.
    rewrite inject_Z_plus in Hhi.
    rewrite (hundredths (Qfloor (x * 100 + (1 # 2)))).
    set (z := inject_Z (Qfloor (x * 100 + (1 # 2)))) in *.
    change (inject_Z 1) with 1 in Hhi. split; lra.
  - pose proof (Qle_ceiling (x * 100 - (1 # 2))) as Hhi.
    pose proof (Qceiling_lt (x * 100 - (1 # 2))) as Hlo.
    unfold Z.sub in Hlo. rewrite inject_Z_plus in Hlo.
    rewrite (hundredths (Qceiling (x * 100 - (1 # 2)))).
    set (z := inject_Z (Qceiling (x * 100 - (1 # 2)))) in *.
    change (inject_Z (- (1))) with (- (1)) in Hlo. split; lra.
Qed.

(** The guard of the CASE keeps the division away from a zero divisor. *)
Lemma rate_case_defined (count paid : nat) :
  rate_case count paid
  = Some (if decide (0 < count)%nat then exact_rate count paid else 0).
Proof.
  unfold rate_case, float_div, exact_rate.
  destruct (decide (0 < count)%nat) as [Hpos|Hzero]; [|done].
  destruct (Qeq_bool (inject_Z (Z.of_nat count)) 0) eqn:Hq; [|done].
  apply Qeq_bool_iff in Hq. unfold Qeq in Hq. simpl in Hq. lia.
Qed.

Lemma select_row_defined db gid gname teacher fee :
  select_row db (gid, gname, teacher, fee)
  = Some (Row gid gname teacher fee (count_students db gid) (count_paid db gid)
              (round2 (if decide (0 < count_students db gid)%nat
                       then exact_rate (count_students db gid) (count_paid db gid)
                       else 0))).
Proof. unfold select_row. by rewrite rate_case_defined. Qed.

(** A group has no joined student row exactly when its count is zero. *)
Lemma count_students_zero db gid :
  count_students db gid = 0%nat ↔ ∀ s, s ∈ students db → s_group_id s ≠ Some gid.
Proof.
  unfold count_students, joined. split.
  - intros Hlen s Hs Hg.
    apply length_zero_iff_nil in Hlen.
    assert (s_id s ∈ remove_dups (s_id <$> filter (λ s, s_group_id s = Some gid) (students db)))
      as Hin.
    { apply elem_of_remove_dups, list_elem_of_fmap. exists s. split; [done|].
      by apply list_elem_of_filter. }
    rewrite Hlen in Hin. by apply elem_of_nil in Hin.
  - intros Hnone. by rewrite (filter_none _ (students db) Hnone).
Qed.

#[local] Instance order_by_total : Total order_by.
Proof.
  intros a b. unfold order_by.
  destruct (lt_eq_lt_dec (student_count a) (student_count b)) as [[Hlt|Heq]|Hgt].
  - right. by left.
  - destruct (Qlt_le_dec (payment_rate a) (payment_rate b)) as [Hr|Hr].
    + right. right. split; [done|]. by apply Qlt_le_weak.
    + left. by right.
  - left. by left.
Qed.

#[local] Instance order_by_trans : Transitive order_by.
Proof.
  intros a b c [Hab|[Hab Hrab]] [Hbc|[Hbc Hrbc]]; unfold order_by.
  - left. lia.
  - left. lia.
  - left. lia.
  - right. split; [lia|]. by apply (Qle_trans _ (payment_rate b)).
Qed.

(** What the statement computes once its rounding is accepted: the
    division is never reached with a zero divisor; there are at most ten
    rows, ordered by student count descending and then payment rate
    descending; every row is a group of the store with its counts; a
    group without students has rate 0; a group with students has its paid
    share times 100, rounded to two decimals. *)
Lemma top_groups_query_rows (db : store) :
  ∃ rows,
    top_groups_query db = Some rows
    ∧ (length rows <= 10)%nat
    ∧ StronglySorted order_by rows
    ∧ ∀ r, r ∈ rows →
        (∃ g, g ∈ groups db ∧ g_id g = id r ∧ g_name g = name r
              ∧ g_teacher_name g = teacher_name r ∧ g_monthly_fee g = monthly_fee r)
        ∧ student_count r = count_students db (id r)
        ∧ paid_students r = count_paid db (id r)
        ∧ (student_count r = 0%nat → payment_rate r == 0)
        ∧ ((∀ s, s ∈ students db → s_group_id s ≠ Some (id r)) →
           student_count r = 0%nat ∧ payment_rate r == 0)
        ∧ ((0 < student_count r)%nat →
           (∃ k : Z, payment_rate r = k # 100)
           ∧ Qabs (payment_rate r - exact_rate (student_count r) (paid_students r))
             <= 1 # 200).
Proof.
  unfold top_groups_query.
  destruct (mapM (select_row db) (group_keys db)) as [all|] eqn:Hall.
  2:{ apply mapM_None_1, Exists_exists in Hall as ([[[gid gname] teacher] fee] & _ & Hrow).
      by rewrite select_row_defined in Hrow. }
  simpl. eexists. split; [reflexivity|].
  split; [apply firstn_le_length|].
  split.
  { apply (StronglySorted_app_1_l _ _ (drop 10 (merge_sort order_by all))).
    rewrite take_drop. apply (StronglySorted_merge_sort _). }
  intros r Hr.
  assert (r ∈ all) as Hin.
  { rewrite <- (merge_sort_Permutation order_by all).
    rewrite <- (take_drop 10 (merge_sort order_by all)). apply elem_of_app. by left. }
  apply mapM_Some_1 in Hall.
  destruct (proj1 (list_elem_of_lookup _ _) Hin) as (i & Hi).
  destruct (Forall2_lookup_r _ _ _ _ _ Hall Hi) as ([[[gid gname] teacher] fee] & Hk & Hsel).
  rewrite select_row_defined in Hsel. injection Hsel as <-. simpl.
  split.
  { apply list_elem_of_lookup_2 in Hk. unfold group_keys in Hk.
    rewrite elem_of_remove_dups in Hk.
    apply list_elem_of_fmap in Hk as (g & Hg & Hgin).
    exists g. injection Hg as -> -> -> ->. done. }
  split; [done|]. split; [done|]. split; [|split].
  - intros Hzero. rewrite Hzero. done.
  - intros Hnone. apply count_students_zero in Hnone. rewrite Hnone. done.
  - intros Hpos. rewrite decide_True by done. apply round2_spec.
Qed.

(** C6.  The top-groups route answers 500 for every store, and so shows
    no row and no rate, not even for a group without students: the
    payment rate is a double precision value (the counts are cast to
    float, and the product and the CASE take the wider type of their
    parts), and the store has no ROUND with a scale for that type.  The CASE itself does what
    the specification says: it never divides by a zero count and is 0 for
    a group without students; with the value cast to numeric the
    statement would be accepted. *)
Theorem top_groups_rounding_is_rejected (db : store) :
  Sql.type_of payment_rate_expr = None
  ∧ get_top_groups db = Response 500 (Message false "Server error")
  ∧ rows_of (get_top_groups db) = []
  ∧ (∀ count paid, rate_case count paid ≠ None)
  ∧ (∀ paid, rate_case 0 paid = Some 0)
  ∧ (∀ value, Sql.type_of (Sql.Round (Sql.Cast value Sql.Numeric) Sql.Literal)
              = _ ← Sql.type_of value; Some Sql.Numeric).
Proof.
  split; [reflexivity|]. split; [reflexivity|]. split; [reflexivity|].
  split; [|split].
  - intros count paid. by rewrite rate_case_defined.
  - intros paid. by rewrite rate_case_defined.
  - intros value. simpl. by destruct (Sql.type_of value).
Qed.

End TopGroupsFacts.

(** * Further properties of the routes *)

(** ** Payments: what a request can and cannot change *)

(** The columns of a student row that no payment route writes. *)
Definition student_core (s : student)
  : Z * option Z * string * option string * option string * string * string :=
  (s_id s, s_group_id s, s_full_name s, s_phone_number s, s_parent_phone s,
   s_join_date s, s_created_at s).

Lemma fmap_if_none {A} (P : A → Prop) `{∀ x, Decision (P x)} (f : A → A) (l : list A) :
  (∀ x, x ∈ l → ¬ P x) → (λ x, if decide (P x) then f x else x) <$> l = l.
Proof.
  induction l as [|x l IH]; intros Hall; [done|].
  simpl. rewrite decide_False by (apply Hall; left).
  f_equal. apply IH. intros y Hy. apply Hall. by right.
Qed.

Lemma set_payment_status_none st ts id (l : list student) :
  (∀ s, s ∈ l → s_id s ≠ id) → set_payment_status st ts id <$> l = l.
Proof. intros Hnone. unfold set_payment_status. by apply fmap_if_none. Qed.

Lemma set_payment_status_other st ts id s :
  s_id s ≠ id → set_payment_status st ts id s = s.
Proof. intros. unfold set_payment_status. by rewrite decide_False. Qed.

Lemma set_payment_status_core st ts id s :
  student_core (set_payment_status st ts id s) = student_core s.
Proof. unfold set_payment_status. by destruct (decide _). Qed.

Lemma set_payment_status_twice st st' ts ts' id s :
  set_payment_status st' ts' id (set_payment_status st ts id s)
  = set_payment_status st' ts' id s.
Proof. unfold set_payment_status. destruct (decide (s_id s = id)); simpl; by destruct (decide _). Qed.

(** The students table after a deletion that found the row [row]. *)
Lemma delete_payments_students c id n db row rows :
  Text.int_in id = Some n →
  filter (λ p, p_id p = n) (payments db) = row :: rows →
  students (delete_payments c id db).2
  = if decide (length (filter (λ p, p_student_id p = p_student_id row
                                    ∧ p_payment_month p = Text.slice0 7 (toISOString c))
                              (payments_without n db)) = 0%nat)
    then set_payment_status "unpaid" (current_timestamp c) (p_student_id row) <$> students db
    else students db.
Proof.
  intros Hid Hrows. unfold delete_payments. rewrite Hid, Hrows. cbn zeta.
  fold (payments_without n db). cbn [payments with_payments snd].
  by destruct (decide _).
Qed.

Section PaymentRequests.
Context `{Validators}.

(** The handler on a request that passed, whose student id the store
    accepts. *)
Lemma post_payments_unfold c b db sid :
  passes payment_rules b →
  Text.int_in (field b "student_id") = Some sid →
  post_payments c b db
  = match filter (λ s, s_id s = sid) (students db) with
    | [] => (not_found "Student", db)
    | row :: _ =>
        let pay := Payment (payments_seq db) sid (s_group_id row) (field b "amount")
                           (field b "payment_month") (field b "payment_date")
                           (field b "payment_method") (or_null (b !! "notes"))
                           (current_timestamp c) in
        (Response 201 (Data (Some "Payment recorded successfully") pay),
         Store (admins db) (groups db)
               (set_payment_status "paid" (current_timestamp c) sid <$> students db)
               (payments db ++ [pay])%list (expenses db)
               (students_seq db) (payments_seq db + 1) (expenses_seq db))
    end.
Proof.
  intros Hok Hsid. unfold post_payments.
  rewrite (run_rules_passes _ _ Hok), payment_rules_body, Hsid.
  by destruct (filter _ (students db)).
Qed.

(** X1.  The three ways a payment request is turned down before the
    INSERT leave every table as it was: a request that fails validation
    (400 with the validation errors), a valid request whose student id
    the store rejects as an integer (500), and a valid request whose
    student id no student row carries (404, "Student not found"). *)
Theorem post_payments_rejected_is_noop (c : clock) (b : body) (db : store) :
  (¬ passes payment_rules b →
   post_payments c b db = (Response 400 (Errors (run_rules payment_rules b).2), db))
  ∧ (passes payment_rules b →
     Text.int_in (field b "student_id") = None →
     post_payments c b db = (Response 500 (Message false "Server error"), db))
  ∧ (∀ sid, passes payment_rules b →
            Text.int_in (field b "student_id") = Some sid →
            (∀ s, s ∈ students db → s_id s ≠ sid) →
            post_payments c b db = (Response 404 (Message false "Student not found"), db)).
Proof.
  split; [|split].
  - intros (e & es & Hrun)%run_rules_fails. unfold post_payments. by rewrite Hrun.
  - intros Hok Hsid. unfold post_payments.
    by rewrite (run_rules_passes _ _ Hok), payment_rules_body, Hsid.
  - intros sid Hok Hsid Hnone.
    rewrite (post_payments_unfold c b db sid Hok Hsid).
    by rewrite (filter_none _ (students db) Hnone).
Qed.

Lemma put_students_payments c id b db :
  payments (put_students c id b db).2 = payments db.
Proof.
  unfold put_students.
  destruct (run_rules student_update_rules b) as [b' [|e es]]; [|done].
  destruct (Text.int_in id) as [n|]; [|done].
  destruct (nullable_int (b' !! "group_id")) as [gid|]; [|done].
  by destruct (_ <$> filter _ (students db)).
Qed.

(** X2.  The group of a payment is the group of the student's row at the
    moment of insertion and is not revised: whatever update of a student
    follows, the payments table, and with it the payment's group, stays. *)
Theorem payment_group_is_copied_once (c c' : clock) (b b' : body) (id' : string)
    (db : store) (sid : Z) (row : student) :
  passes payment_rules b →
  Text.int_in (field b "student_id") = Some sid →
  head (filter (λ s, s_id s = sid) (students db)) = Some row →
  let db1 := (post_payments c b db).2 in
  let db2 := (put_students c' id' b' db1).2 in
  ∃ pay, payments db1 = (payments db ++ [pay])%list
         ∧ p_group_id pay = s_group_id row
         ∧ payments db2 = payments db1.
Proof.
  intros Hok Hsid Hrow. simpl.
  rewrite put_students_payments.
  rewrite (post_payments_unfold c b db sid Hok Hsid).
  destruct (filter _ (students db)) as [|r rs]; [done|].
  simpl in Hrow. injection Hrow as ->. by eexists.
Qed.

(** X3.  Recording a payment under a fresh id and deleting it again
    restores the payments table, and leaves the student reconciled with
    the month of the deletion clock: the rows of the student are paid
    exactly when a payment of the student for that month is on record. *)
Theorem post_then_delete_payment (c c' : clock) (b : body) (id : string)
    (db : store) (sid : Z) :
  passes payment_rules b →
  Text.int_in (field b "student_id") = Some sid →
  (∃ s, s ∈ students db ∧ s_id s = sid) →
  (∀ p, p ∈ payments db → p_id p ≠ payments_seq db) →
  Text.int_in id = Some (payments_seq db) →
  let db1 := (post_payments c b db).2 in
  let db2 := (delete_payments c' id db1).2 in
  payments db2 = payments db
  ∧ student_core <$> students db2 = student_core <$> students db
  ∧ ∀ s, s ∈ students db2 → s_id s = sid →
         (s_payment_status s = "paid"
          ↔ ∃ p, p ∈ payments db ∧ p_student_id p = sid
                 ∧ p_payment_month p = Text.slice0 7 (toISOString c')).
Proof.
  intros Hok Hsid (s0 & Hs0 & Hs0id) Hfresh Hid. simpl.
  rewrite (post_payments_unfold c b db sid Hok Hsid).
  destruct (filter_nonempty (λ s, s_id s = sid) (students db) s0 Hs0 Hs0id)
    as (row & rows & ->).
  cbn zeta. cbn [snd].
  set (pay := Payment (payments_seq db) sid (s_group_id row) (field b "amount")
                      (field b "payment_month") (field b "payment_date")
                      (field b "payment_method") (or_null (b !! "notes"))
                      (current_timestamp c)).
  set (db1 := Store _ _ _ _ _ _ _ _).
  assert (filter (λ p, p_id p = payments_seq db) (payments db1) = [pay]) as Hhit.
  { unfold db1. cbn [payments]. rewrite filter_app, filter_cons_True by done.
    by rewrite (filter_none _ (payments db)) by (intros p Hp; by apply Hfresh). }
  assert (payments_without (payments_seq db) db1 = payments db) as Hrest.
  { unfold payments_without, db1. cbn [payments].
    rewrite filter_app, filter_cons_False by (simpl; tauto).
    rewrite filter_nil, app_nil_r. apply filter_all. intros p Hp. by apply Hfresh. }
  rewrite (delete_payments_payments c' id _ db1 Hid), Hrest.
  rewrite (delete_payments_students c' id _ db1 pay [] Hid Hhit), Hrest.
  change (p_student_id pay) with sid.
  change (students db1)
    with (set_payment_status "paid" (current_timestamp c) sid <$> students db).
  split; [done|].
  destruct (decide (length (filter _ (payments db)) = 0%nat)) as [Hzero|Hsome].
  - split.
    + rewrite <- !list_fmap_compose. apply list_fmap_ext. intros i s _. simpl.
      by rewrite !set_payment_status_core.
    + intros s (s1 & -> & (s2 & -> & Hs2)%list_elem_of_fmap)%list_elem_of_fmap Hsid'.
      rewrite !set_payment_status_id in Hsid'.
      rewrite set_payment_status_twice, set_payment_status_hit by done.
      split; [done|]. intros (p & Hp & Hps & Hpm).
      apply length_zero_iff_nil in Hzero.
      assert (p ∈ filter (λ p, p_student_id p = sid
                               ∧ p_payment_month p = Text.slice0 7 (toISOString c'))
                         (payments db)) as Hin by (by apply list_elem_of_filter).
      rewrite Hzero in Hin. by apply elem_of_nil in Hin.
  - split.
    + rewrite <- !list_fmap_compose. apply list_fmap_ext. intros i s _. simpl.
      by rewrite set_payment_status_core.
    + intros s (s1 & -> & Hs1)%list_elem_of_fmap Hsid'.
      rewrite set_payment_status_id in Hsid'.
      rewrite set_payment_status_hit by done.
      split; [|done]. intros _.
      destruct (filter (λ p, p_student_id p = sid
                             ∧ p_payment_month p = Text.slice0 7 (toISOString c'))
                       (payments db)) as [|p ps] eqn:E; [done|].
      assert (p ∈ filter (λ p, p_student_id p = sid
                               ∧ p_payment_month p = Text.slice0 7 (toISOString c'))
                         (payments db)) as Hin by (rewrite E; left).
      apply list_elem_of_filter in Hin as [[? ?] ?]. by exists p.
Qed.

End PaymentRequests.

(** X4.  Deleting a payment, whatever the id, never touches admins, groups
    or expenses, never adds or removes a student row, never writes a column
    of a student other than status and update stamp, and never sets a
    status to anything but "unpaid". *)
Theorem delete_payments_frame (c : clock) (id : string) (db : store) :
  let db' := (delete_payments c id db).2 in
  admins db' = admins db ∧ groups db' = groups db ∧ expenses db' = expenses db
  ∧ student_core <$> students db' = student_core <$> students db
  ∧ Forall2 (λ s s', s_payment_status s' = s_payment_status s
                     ∨ s_payment_status s' = "unpaid")
            (students db) (students db').
Proof.
  simpl. unfold delete_payments.
  assert (Forall2 (λ s s', s_payment_status s' = s_payment_status s
                           ∨ s_payment_status s' = "unpaid")
                  (students db) (students db)) as Hrefl.
  { apply Forall2_same_length_lookup. split; [done|]. intros i s s' Hs Hs'. left. congruence. }
  destruct (Text.int_in id) as [n|]; [|done].
  destruct (filter (λ p, p_id p = n) (payments db)) as [|row rows]; [done|].
  cbn zeta. destruct (decide _) as [Hzero|Hsome]; [|done].
  cbn [snd with_students with_payments admins groups expenses students].
  split; [done|]. split; [done|]. split; [done|]. split.
  - rewrite <- list_fmap_compose. apply list_fmap_ext. intros i s _. simpl.
    by rewrite set_payment_status_core.
  - apply Forall2_fmap_r, Forall_Forall2_diag, Forall_forall. intros s _.
    destruct (decide (s_id s = p_student_id row)) as [Heq|Hne].
    + right. by apply set_payment_status_hit.
    + left. by rewrite set_payment_status_other.
Qed.

(** ** The unpaid list (routes/dashboard) *)

Lemma join_group_student db s v : v ∈ join_group db s → sv_student v = s.
Proof.
  unfold join_group. destruct (filter _ (groups db)) as [|g gs].
  - by intros ->%list_elem_of_singleton.
  - by intros (g' & -> & _)%list_elem_of_fmap.
Qed.

(** The join is a LEFT JOIN: every student row yields a row. *)
Lemma join_group_total db s : ∃ v, v ∈ join_group db s.
Proof.
  unfold join_group. destruct (filter _ (groups db)) as [|g gs].
  - eexists. by left.
  - eexists. simpl. by left.
Qed.

Lemma join_group_name db s v :
  v ∈ join_group db s →
  (sv_group_name v = None ↔ ∀ g, g ∈ groups db → Some (g_id g) ≠ s_group_id s).
Proof.
  unfold join_group.
  destruct (filter (λ g, Some (g_id g) = s_group_id s) (groups db)) as [|g gs] eqn:E.
  - intros ->%list_elem_of_singleton. split; [|done]. intros _ g Hg Heq.
    assert (g ∈ filter (λ g, Some (g_id g) = s_group_id s) (groups db)) as Hin
      by (by apply list_elem_of_filter).
    rewrite E in Hin. by apply elem_of_nil in Hin.
  - intros (g' & -> & _)%list_elem_of_fmap. split; [done|]. intros Hnone.
    assert (g ∈ filter (λ g, Some (g_id g) = s_group_id s) (groups db)) as Hin
      by (rewrite E; left).
    apply list_elem_of_filter in Hin as [Heq Hg]. by destruct (Hnone g Hg).
Qed.

Lemma elem_of_unpaid_rows db v :
  v ∈ rows_of (get_unpaid_students db)
  ↔ ∃ s, s ∈ students db ∧ s_payment_status s = "unpaid" ∧ v ∈ join_group db s.
Proof.
  unfold get_unpaid_students, rows_of. simpl.
  rewrite merge_sort_Permutation, list_elem_of_bind.
  split.
  - intros (s & Hv & [Hst Hs]%list_elem_of_filter). by exists s.
  - intros (s & Hs & Hst & Hv). exists s. split; [done|]. by apply list_elem_of_filter.
Qed.

(** X5.  The unpaid list holds the unpaid students and nobody else: each
    row is a student row of the store with status "unpaid", each unpaid
    student row is listed, and a row has no group name exactly when no
    group row carries the student's group id (a student whose group was
    deleted is still listed). *)
Theorem unpaid_list_exact (db : store) :
  status (get_unpaid_students db) = 200%nat
  ∧ (∀ v, v ∈ rows_of (get_unpaid_students db) →
          sv_student v ∈ students db
          ∧ s_payment_status (sv_student v) = "unpaid"
          ∧ (sv_group_name v = None
             ↔ ∀ g, g ∈ groups db → Some (g_id g) ≠ s_group_id (sv_student v)))
  ∧ (∀ s, s ∈ students db → s_payment_status s = "unpaid" →
          ∃ v, v ∈ rows_of (get_unpaid_students db) ∧ sv_student v = s).
Proof.
  split; [done|]. split.
  - intros v (s & Hs & Hst & Hv)%elem_of_unpaid_rows.
    rewrite (join_group_student db s v Hv). split; [done|]. split; [done|].
    by apply join_group_name.
  - intros s Hs Hst. destruct (join_group_total db s) as (v & Hv).
    exists v. split; [|by apply (join_group_student db)].
    apply elem_of_unpaid_rows. by exists s.
Qed.

Section UnpaidAfterPayment.
Context `{Validators}.

(** X6.  Once a payment for a student has been recorded, no row of that
    student is on the unpaid list, whatever month the payment covers. *)
Theorem paid_student_not_on_unpaid_list (c : clock) (b : body) (db : store) (sid : Z) :
  passes payment_rules b →
  Text.int_in (field b "student_id") = Some sid →
  (∃ s, s ∈ students db ∧ s_id s = sid) →
  ∀ v, v ∈ rows_of (get_unpaid_students (post_payments c b db).2) →
       s_id (sv_student v) ≠ sid.
Proof.
  intros Hok Hsid (s0 & Hs0 & Hs0id) v.
  rewrite (post_payments_unfold c b db sid Hok Hsid).
  destruct (filter_nonempty (λ s, s_id s = sid) (students db) s0 Hs0 Hs0id)
    as (row & rows & ->).
  cbn zeta. cbn [snd].
  intros (s & Hs & Hst & Hv)%elem_of_unpaid_rows Hvid.
  rewrite (join_group_student _ s v Hv) in Hvid.
  cbn [students] in Hs.
  by rewrite (set_payment_status_all _ _ _ _ s Hs Hvid) in Hst.
Qed.

End UnpaidAfterPayment.

(** ** Updates and deletions of rows that are not there *)

Section MissingRows.
Context `{Validators}.


End MissingRows.

(** ** Hard deletes (routes/expenses, routes/students, routes/groups) *)

(** What the three hard-delete routes share: the rows with the id go, the
    other rows stay in order, and the answer tells whether a row was
    there. *)
Lemma delete_expenses_hit id n db :
  Text.int_in id = Some n →
  (∃ x, x ∈ expenses db ∧ e_id x = n) →
  delete_expenses id db
  = (Response 200 (Message true "Expense deleted successfully"),
     with_expenses db (filter (λ x, e_id x ≠ n) (expenses db)) (expenses_seq db)).
Proof.
  intros Hid (x & Hx & Hn). unfold delete_expenses. rewrite Hid. cbn zeta.
  by destruct (filter_nonempty (λ x, e_id x = n) (expenses db) x Hx Hn) as (y & ys & ->).
Qed.

Lemma delete_expenses_miss id n db :
  Text.int_in id = Some n →
  (∀ x, x ∈ expenses db → e_id x ≠ n) →
  delete_expenses id db = (Response 404 (Message false "Expense not found"), db).
Proof.
  intros Hid Hnone. unfold delete_expenses. rewrite Hid. cbn zeta.
  rewrite (filter_none _ (expenses db) Hnone), (filter_all _ (expenses db) Hnone).
  unfold with_expenses. by rewrite store_eta.
Qed.

Lemma delete_students_hit id n db :
  Text.int_in id = Some n →
  (∃ x, x ∈ students db ∧ s_id x = n) →
  delete_students id db
  = (Response 200 (Message true "Student deleted successfully"),
     with_students db (filter (λ x, s_id x ≠ n) (students db)) (students_seq db)).
Proof.
  intros Hid (x & Hx & Hn). unfold delete_students. rewrite Hid. cbn zeta.
  by destruct (filter_nonempty (λ x, s_id x = n) (students db) x Hx Hn) as (y & ys & ->).
Qed.

Lemma delete_students_miss id n db :
  Text.int_in id = Some n →
  (∀ x, x ∈ students db → s_id x ≠ n) →
  delete_students id db = (Response 404 (Message false "Student not found"), db).
Proof.
  intros Hid Hnone. unfold delete_students. rewrite Hid. cbn zeta.
  rewrite (filter_none _ (students db) Hnone), (filter_all _ (students db) Hnone).
  unfold with_students. by rewrite store_eta.
Qed.

Lemma delete_groups_hit id n db :
  Text.int_in id = Some n →
  (∃ x, x ∈ groups db ∧ g_id x = n) →
  delete_groups id db
  = (Response 200 (Message true "Group deleted successfully"),
     with_groups db (filter (λ x, g_id x ≠ n) (groups db))).
Proof.
  intros Hid (x & Hx & Hn). unfold delete_groups. rewrite Hid. cbn zeta.
  by destruct (filter_nonempty (λ x, g_id x = n) (groups db) x Hx Hn) as (y & ys & ->).
Qed.

Lemma delete_groups_miss id n db :
  Text.int_in id = Some n →
  (∀ x, x ∈ groups db → g_id x ≠ n) →
  delete_groups id db = (Response 404 (Message false "Group not found"), db).
Proof.
  intros Hid Hnone. unfold delete_groups. rewrite Hid. cbn zeta.
  rewrite (filter_none _ (groups db) Hnone), (filter_all _ (groups db) Hnone).
  unfold with_groups. by rewrite store_eta.
Qed.

(** X8.  Deleting an expense, a student or a group twice: when a row with
    the id exists the first request is answered 200 and removes the rows
    with that id and no other row; the second is answered 404 and leaves
    the store as the first left it. *)
Theorem hard_delete_twice (id : string) (n : Z) (db : store) :
  Text.int_in id = Some n →
  ((∃ e, e ∈ expenses db ∧ e_id e = n) →
   let first := delete_expenses id db in
   first.1 = Response 200 (Message true "Expense deleted successfully")
   ∧ expenses first.2 = filter (λ e, e_id e ≠ n) (expenses db)
   ∧ delete_expenses id first.2 = (Response 404 (Message false "Expense not found"), first.2))
  ∧ ((∃ s, s ∈ students db ∧ s_id s = n) →
     let first := delete_students id db in
     first.1 = Response 200 (Message true "Student deleted successfully")
     ∧ students first.2 = filter (λ s, s_id s ≠ n) (students db)
     ∧ delete_students id first.2 = (Response 404 (Message false "Student not found"), first.2))
  ∧ ((∃ g, g ∈ groups db ∧ g_id g = n) →
     let first := delete_groups id db in
     first.1 = Response 200 (Message true "Group deleted successfully")
     ∧ groups first.2 = filter (λ g, g_id g ≠ n) (groups db)
     ∧ delete_groups id first.2 = (Response 404 (Message false "Group not found"), first.2)).
Proof.
  intros Hid. split; [|split]; intros Hrow; cbn zeta.
  - rewrite (delete_expenses_hit id n db Hid Hrow). cbn [fst snd].
    split; [done|]. split; [done|].
    apply (delete_expenses_miss id n _ Hid). by intros x [? _]%list_elem_of_filter.
  - rewrite (delete_students_hit id n db Hid Hrow). cbn [fst snd].
    split; [done|]. split; [done|].
    apply (delete_students_miss id n _ Hid). by intros x [? _]%list_elem_of_filter.
  - rewrite (delete_groups_hit id n db Hid Hrow). cbn [fst snd].
    split; [done|]. split; [done|].
    apply (delete_groups_miss id n _ Hid). by intros x [? _]%list_elem_of_filter.
Qed.

(** ** Registration and login (routes/auth) *)


Section RegisterLogin.
Context `{Validators} `{Crypto} `{Registration}.

Lemma register_rules_body b :
  (run_rules register_rules b).1 = <["username" := trim (field b "username")]> b.
Proof. unfold register_rules. by rewrite !run_rules_body_cons. Qed.



Lemma post_register_unfold salt new_id b db :
  passes register_rules b →
  post_register salt new_id b db
  = match filter (λ a, a_username a = trim (field b "username")
                       ∨ a_email a = field b "email") (admins db) with
    | _ :: _ => (Response 400 (Message false "Username or email already exists"), db)
    | [] =>
        (Response 201 (Data (Some "Admin registered successfully")
                            (Registered new_id (trim (field b "username")) (field b "email"))),
         Store (admins db ++ [Admin new_id (trim (field b "username"))
                                     (bcrypt_hash salt (field b "password"))
                                     (field b "email")])
               (groups db) (students db) (payments db) (expenses db)
               (students_seq db) (payments_seq db) (expenses_seq db))
    end.
Proof.
  intros Hok. unfold post_register.
  rewrite (run_rules_passes _ _ Hok), register_rules_body. by simplify_fields.
Qed.


(** X12.  Registration never stores a second admin under a taken username
    or email: such a request is answered 400 and changes nothing, and
    usernames (and emails) that are pairwise distinct stay so after any
    registration request. *)
Theorem register_keeps_admins_distinct (salt : string) (new_id : Z) (b : body) (db : store) :
  (passes register_rules b →
   (∃ a, a ∈ admins db
         ∧ (a_username a = trim (field b "username") ∨ a_email a = field b "email")) →
   post_register salt new_id b db
   = (Response 400 (Message false "Username or email already exists"), db))
  ∧ (NoDup (a_username <$> admins db) →
     NoDup (a_username <$> admins (post_register salt new_id b db).2))
  ∧ (NoDup (a_email <$> admins db) →
     NoDup (a_email <$> admins (post_register salt new_id b db).2)).
Proof.
  split.
  { intros Hok (a & Ha & Htaken).
    rewrite (post_register_unfold salt new_id b db Hok).
    by destruct (filter_nonempty
                   (λ a, a_username a = trim (field b "username")
                         ∨ a_email a = field b "email")
                   (admins db) a Ha Htaken) as (y & ys & ->). }
  destruct (decide (passes register_rules b)) as [Hok|Hbad].
  2:{ destruct (run_rules_fails _ _ Hbad) as (e & es & Hrun).
      unfold post_register. by rewrite Hrun. }
  rewrite (post_register_unfold salt new_id b db Hok).
  destruct (filter _ (admins db)) as [|a0 rest] eqn:E; [|done].
  assert (∀ a, a ∈ admins db →
               a_username a ≠ trim (field b "username") ∧ a_email a ≠ field b "email")
    as Hfree.
  { intros a Ha. split; intros Heq.
    - assert (a ∈ filter (λ a, a_username a = trim (field b "username")
                               ∨ a_email a = field b "email") (admins db)) as Hin
        by (apply list_elem_of_filter; auto).
      rewrite E in Hin. by apply elem_of_nil in Hin.
    - assert (a ∈ filter (λ a, a_username a = trim (field b "username")
                               ∨ a_email a = field b "email") (admins db)) as Hin
        by (apply list_elem_of_filter; auto).
      rewrite E in Hin. by apply elem_of_nil in Hin. }
  cbn [snd admins]. rewrite !fmap_app. cbn [fmap list_fmap a_username a_email].
  split; intros Hnodup; apply NoDup_app; (split; [done|]); (split; [|apply NoDup_singleton]).
  - intros u (a & Hu & Ha)%list_elem_of_fmap Hnew%list_elem_of_singleton.
    destruct (Hfree a Ha). congruence.
  - intros u (a & Hu & Ha)%list_elem_of_fmap Hnew%list_elem_of_singleton.
    destruct (Hfree a Ha). congruence.
Qed.


(** X14.  The two login routers differ only in trimming the username:
    for a request whose username has no surrounding white space (trimming
    leaves it as it is) they answer with the same status. *)
Theorem login_routers_agree (b : body) (db : store) :
  trim (field b "username") = field b "username" →
  status (post_login b db) = status (pool_post_login b db).
Proof.
  intros Htrim.
  assert (passes login_rules b ↔ passes pool_login_rules b) as Hiff.
  { unfold login_rules, pool_login_rules. rewrite !passes_cons.
    cbn [sanitize rule_sanitize rule_check rule_field].
    rewrite field_insert_eq, field_insert_ne, Htrim by done.
    unfold passes. simpl. tauto. }
  destruct (decide (passes login_rules b)) as [Hok|Hbad].
  - rewrite (post_login_unfold b db Hok), (pool_post_login_unfold b db (proj1 Hiff Hok)), Htrim.
    destruct (filter _ (admins db)) as [|a rest]; [done|].
    by destruct (bcrypt_compare _ _).
  - destruct (run_rules_fails _ _ Hbad) as (e & es & Hrun).
    assert (¬ passes pool_login_rules b) as Hbad' by tauto.
    destruct (run_rules_fails _ _ Hbad') as (e' & es' & Hrun').
    by rewrite (post_login_invalid b db Hbad), (pool_post_login_invalid b db Hbad').
Qed.

End RegisterLogin.

(** ** Group counts and rates (routes/groups, routes/dashboard) *)

Section GroupCounts.
Import TopGroups.
Local Open Scope Q_scope.

(** The paid students of a group are among its students. *)
Lemma count_paid_le db gid : (count_paid db gid <= count_students db gid)%nat.
Proof.
  unfold count_paid, count_students.
  apply submseteq_length, NoDup_submseteq; [apply NoDup_remove_dups|].
  intros x. rewrite !elem_of_remove_dups.
  intros (s & -> & [_ Hs]%list_elem_of_filter)%list_elem_of_fmap.
  apply list_elem_of_fmap. by exists s.
Qed.

(** X16.  The group list has one row per group row, each with its
    students counted: the paid count never exceeds the student count, and
    the student count is zero exactly when no student row refers to the
    group. *)
Theorem group_list_counts (db : store) :
  status (get_groups db) = 200%nat
  ∧ gc_group <$> rows_of (get_groups db) ≡ₚ groups db
  ∧ ∀ r, r ∈ rows_of (get_groups db) →
         (gc_paid_students r <= gc_student_count r)%nat
         ∧ (gc_student_count r = 0%nat
            ↔ ∀ s, s ∈ students db → s_group_id s ≠ Some (g_id (gc_group r))).
Proof.
  split; [done|]. unfold get_groups, rows_of. simpl. split.
  - rewrite merge_sort_Permutation, <- list_fmap_compose. simpl.
    by rewrite list_fmap_id.
  - intros r. rewrite merge_sort_Permutation.
    intros (g & -> & _)%list_elem_of_fmap. simpl.
    split; [apply count_paid_le|apply count_students_zero].
Qed.

End GroupCounts.

(** ** Monthly chart and statistics (routes/dashboard) *)

(** A pattern character that is neither a wildcard nor the escape matches
    itself only. *)
Lemma like_cons_literal (a : ascii) (pat s : list ascii) :
  a ≠ "%"%char → a ≠ "_"%char → a ≠ "\"%char →
  Text.like (a :: pat) s
  = match s with
    | [] => false
    | c :: s' => bool_decide (c = a) && Text.like pat s'
    end.
Proof.
  intros Hpercent Hunderscore Hescape.
  destruct a as [[] [] [] [] [] [] [] []]; try reflexivity; congruence.
Qed.

Lemma like_percent (s : list ascii) : Text.like ["%"%char] s = true.
Proof. induction s as [|c s IH]; [done|]. simpl in *. exact IH. Qed.

Lemma is_digit_literal (a : ascii) :
  Text.is_digit a = true → a ≠ "%"%char ∧ a ≠ "_"%char ∧ a ≠ "\"%char.
Proof. intros Hd. repeat split; intros ->; discriminate Hd. Qed.

(** A year of digits, used as the pattern [year%], selects every month
    token that starts with the year. *)
Lemma sql_like_year (year rest : string) :
  Text.all_digits year = true → Text.sql_like (year +:+ rest) (year +:+ "%") = true.
Proof.
  unfold Text.sql_like. induction year as [|a year IH]; intros Hd.
  - apply like_percent.
  - simpl in Hd. apply andb_prop in Hd as [Ha Hyear].
    destruct (is_digit_literal a Ha) as (H1 & H2 & H3).
    change (Text.like (a :: String.list_ascii_of_string (year +:+ "%"))
                      (a :: String.list_ascii_of_string (year +:+ rest)) = true).
    rewrite like_cons_literal by done.
    rewrite bool_decide_eq_true_2 by done. by apply IH.
Qed.

Lemma filter_within {A} (P Q : A → Prop) `{∀ x, Decision (P x)} `{∀ x, Decision (Q x)}
    (l : list A) :
  (∀ x, P x → Q x) → filter P (filter Q l) = filter P l.
Proof.
  intros HPQ. induction l as [|x l IH]; [done|].
  destruct (decide (P x)) as [HP|HP].
  - rewrite (filter_cons_True Q) by auto. rewrite !(filter_cons_True P) by done.
    by f_equal.
  - rewrite (filter_cons_False P x l) by done.
    destruct (decide (Q x)) as [HQ|HQ].
    + rewrite (filter_cons_True Q) by done. by rewrite (filter_cons_False P) by done.
    + by rewrite (filter_cons_False Q) by done.
Qed.

Lemma find_key_fmap {B} (g : string → B) (m : string) (keys : list string) :
  m ∈ keys →
  List.find (λ r : string * B, bool_decide (r.1 = m)) ((λ k, (k, g k)) <$> keys)
  = Some (m, g m).
Proof.
  induction keys as [|k keys IH]; [by intros ?%elem_of_nil|].
  intros Hm. simpl. destruct (decide (k = m)) as [->|Hne].
  - by rewrite bool_decide_eq_true_2.
  - rewrite bool_decide_eq_false_2 by done. apply IH.
    apply elem_of_cons in Hm as [->|Hm]; done.
Qed.

Lemma filter_key_fmap {A} (key val : A → string) (m : string) (l : list A) :
  (filter (λ r : string * string, r.1 = m) ((λ x, (key x, val x)) <$> l)).*2
  = val <$> filter (λ x, key x = m) l.
Proof.
  induction l as [|x l IH]; [done|]. simpl.
  destruct (decide (key x = m)) as [Hk|Hk].
  - rewrite !filter_cons_True by done. simpl. by f_equal.
  - rewrite !filter_cons_False by done. done.
Qed.

Section ChartSums.
Context `{Arith}.

(** The grouped query finds the sum of a month that the pattern selects
    and some row carries. *)
Lemma find_month_present {A} (key val : A → string) pattern (l : list A) (m : string) :
  Text.sql_like m pattern = true →
  (∃ x, x ∈ l ∧ key x = m) →
  List.find (λ r, bool_decide (r.1 = m))
            (monthly_totals pattern ((λ x, (key x, val x)) <$> l))
  = Some (m, sql_sum (val <$> filter (λ x, key x = m) l)).
Proof.
  intros Hlike (x & Hx & Hkey). unfold monthly_totals.
  set (rows := (λ x, (key x, val x)) <$> l).
  set (selected := filter (λ r, Text.sql_like r.1 pattern) rows).
  assert (filter (λ r : string * string, r.1 = m) selected
          = filter (λ r : string * string, r.1 = m) rows) as Hsame.
  { apply filter_within. intros r Hr. by rewrite Hr, Hlike. }
  rewrite (find_key_fmap (λ k, sql_sum (filter (λ r : string * string, r.1 = k) selected).*2)).
  - rewrite Hsame. unfold rows. by rewrite filter_key_fmap.
  - rewrite merge_sort_Permutation, elem_of_remove_dups.
    apply list_elem_of_fmap. exists (key x, val x). split; [done|].
    apply list_elem_of_filter. split; [simpl; by rewrite Hkey, Hlike|].
    apply list_elem_of_fmap. by exists x.
Qed.

Lemma chart_row_inv c q db r :
  r ∈ rows_of (get_monthly_chart c q db) →
  let year := or_default (q !! "year") (getFullYear c) in
  ∃ i : nat,
    month r = year +:+ "-" +:+ Text.padStart2 i
    ∧ income r
      = match List.find (λ x, bool_decide (x.1 = month r))
                (monthly_totals (year +:+ "%")
                   ((λ p, (p_payment_month p, p_amount p)) <$> payments db)) with
        | Some x => parseFloat x.2 | None => zero end
    ∧ expenses_total r
      = match List.find (λ x, bool_decide (x.1 = month r))
                (monthly_totals (year +:+ "%")
                   ((λ e, (e_expense_month e, e_amount e)) <$> expenses db)) with
        | Some x => parseFloat x.2 | None => zero end
    ∧ profit r = sub (income r) (expenses_total r).
Proof.
  unfold get_monthly_chart, rows_of. cbn [json].
  intros (i & -> & _)%list_elem_of_fmap. by exists i.
Qed.

(** X17.  When the year in effect consists of digits, a row of the monthly
    chart whose month some payment carries shows as income the sum of the
    amounts of exactly the payments of that month, and likewise for
    expenses. *)
Theorem monthly_chart_reports_sums (c : clock) (q : body) (db : store) (r : chart_row) :
  Text.all_digits (or_default (q !! "year") (getFullYear c)) = true →
  r ∈ rows_of (get_monthly_chart c q db) →
  ((∃ p, p ∈ payments db ∧ p_payment_month p = month r) →
   income r
   = parseFloat (sql_sum (p_amount <$> filter (λ p, p_payment_month p = month r)
                                              (payments db))))
  ∧ ((∃ e, e ∈ expenses db ∧ e_expense_month e = month r) →
     expenses_total r
     = parseFloat (sql_sum (e_amount <$> filter (λ e, e_expense_month e = month r)
                                                (expenses db)))).
Proof.
  intros Hyear (i & Hmonth & Hincome & Hexpenses & _)%chart_row_inv.
  assert (Text.sql_like (month r) (or_default (q !! "year") (getFullYear c) +:+ "%") = true)
    as Hlike by (rewrite Hmonth; by apply sql_like_year).
  split; intros Hrow.
  - rewrite Hincome.
    by rewrite (find_month_present p_payment_month p_amount _ (payments db) (month r) Hlike Hrow).
  - rewrite Hexpenses.
    by rewrite (find_month_present e_expense_month e_amount _ (expenses db) (month r) Hlike Hrow).
Qed.

(** X18.  The chart and the statistics agree: for a year of digits, a row
    of the chart whose month has at least one payment and one expense
    shows the income, expenses and profit that the statistics route
    reports for that month. *)
Theorem monthly_chart_agrees_with_stats (c c' : clock) (q : body) (db : store)
    (r : chart_row) :
  Text.all_digits (or_default (q !! "year") (getFullYear c)) = true →
  r ∈ rows_of (get_monthly_chart c q db) →
  (∃ p, p ∈ payments db ∧ p_payment_month p = month r) →
  (∃ e, e ∈ expenses db ∧ e_expense_month e = month r) →
  ∃ st, get_stats c' {[ "month" := month r ]} db = Response 200 (Data None st)
        ∧ stats_month st = month r
        ∧ totalIncome st = income r
        ∧ totalExpenses st = expenses_total r
        ∧ netProfit st = profit r.
Proof.
  intros Hyear Hr Hp He.
  pose proof Hr as (i & Hmonth & _ & _ & Hprofit)%chart_row_inv.
  assert (Text.sql_like (month r) (or_default (q !! "year") (getFullYear c) +:+ "%") = true)
    as Hlike by (rewrite Hmonth; by apply sql_like_year).
  assert (income r
          = parseFloat (sql_sum (p_amount <$> filter (λ p, p_payment_month p = month r)
                                                     (payments db)))) as Hincome.
  { apply chart_row_inv in Hr as (_ & _ & -> & _ & _).
    by rewrite (find_month_present p_payment_month p_amount _ (payments db) (month r) Hlike Hp). }
  assert (expenses_total r
          = parseFloat (sql_sum (e_amount <$> filter (λ e, e_expense_month e = month r)
                                                     (expenses db)))) as Hexpenses.
  { apply chart_row_inv in Hr as (_ & _ & _ & -> & _).
    by rewrite (find_month_present e_expense_month e_amount _ (expenses db) (month r) Hlike He). }
  assert (or_default (({[ "month" := month r ]} : body) !! "month")
                     (Text.slice0 7 (toISOString c')) = month r) as Hq.
  { rewrite lookup_singleton_eq, Hmonth.
    by destruct (or_default (q !! "year") (getFullYear c)). }
  eexists. unfold get_stats. rewrite Hq. split; [reflexivity|]. cbn [stats_month totalIncome
    totalExpenses netProfit].
  destruct Hp as (p & Hp & Hpm), He as (e & He & Hem).
  destruct (filter_nonempty (λ p, p_payment_month p = month r) (payments db) p Hp Hpm)
    as (p0 & ps & Hps).
  destruct (filter_nonempty (λ e, e_expense_month e = month r) (expenses db) e He Hem)
    as (e0 & es & Hes).
  rewrite Hprofit, Hincome, Hexpenses, Hps, Hes. done.
Qed.

End ChartSums.

(** Counting the rows of a table by a key splits the table. *)
Lemma length_filter_split {A} (P : A → Prop) `{∀ x, Decision (P x)} (l : list A) :
  length l = (length (filter P l) + length (filter (λ x, ¬ P x) l))%nat.
Proof.
  induction l as [|x l IH]; [done|].
  destruct (decide (P x)) as [HP|HP].
  - rewrite (filter_cons_True P) by done.
    rewrite (filter_cons_False (λ x, ¬ P x)) by tauto. simpl. lia.
  - rewrite (filter_cons_False P) by done.
    rewrite (filter_cons_True (λ x, ¬ P x)) by done. simpl. lia.
Qed.

Lemma count_partition {A} (f : A → string) (ks : list string) (l : list A) :
  NoDup ks → (∀ x, x ∈ l → f x ∈ ks) →
  sum_list ((λ k, length (filter (λ x, f x = k) l)) <$> ks) = length l.
Proof.
  revert l. induction ks as [|k ks IH]; intros l Hnodup Hall.
  - destruct l as [|x l]; [done|].
    assert (f x ∈ @nil string) as Hx by (apply Hall; left). inversion Hx.
  - apply NoDup_cons in Hnodup as [Hk Hnodup]. simpl.
    rewrite (length_filter_split (λ x, f x = k) l). f_equal.
    rewrite <- (IH (filter (λ x, f x ≠ k) l) Hnodup).
    + f_equal. apply Forall_fmap_ext, Forall_forall. intros k' Hk'.
      f_equal. symmetry. apply filter_within. intros x -> ->. done.
    + intros x [Hne Hx]%list_elem_of_filter.
      destruct (proj1 (elem_of_cons _ _ _) (Hall x Hx)) as [Heq|Hin]; done.
Qed.

Lemma status_counts_sum (l : list student) : sum_list (status_counts l).*2 = length l.
Proof.
  unfold status_counts. rewrite <- list_fmap_compose.
  apply (count_partition s_payment_status); [apply NoDup_remove_dups|].
  intros s Hs. apply elem_of_remove_dups, list_elem_of_fmap. by exists s.
Qed.

Section StatsFacts.
Context `{Arith}.

(** X19.  The statistics route reports the month of the query, or the
    month of the clock when the query gives none; its status breakdown
    lists every status once, with a positive count of the students that
    carry it, and the counts add up to the student total; the net profit
    is income minus expenses. *)
Theorem stats_breakdown_partitions_students (c : clock) (q : body) (db : store) :
  ∃ st,
    get_stats c q db = Response 200 (Data None st)
    ∧ stats_month st = or_default (q !! "month") (Text.slice0 7 (toISOString c))
    ∧ (q !! "month" = None → stats_month st = Text.slice0 7 (toISOString c))
    ∧ totalGroups st = length (groups db)
    ∧ totalStudents st = length (students db)
    ∧ NoDup (paymentStatus st).*1
    ∧ sum_list (paymentStatus st).*2 = totalStudents st
    ∧ (∀ k n, (k, n) ∈ paymentStatus st →
              (0 < n)%nat
              ∧ n = length (filter (λ s, s_payment_status s = k) (students db)))
    ∧ netProfit st = sub (totalIncome st) (totalExpenses st).
Proof.
  eexists. split; [reflexivity|].
  cbn [stats_month totalGroups totalStudents paymentStatus netProfit totalIncome totalExpenses].
  split; [done|]. split; [by intros ->|]. split; [done|]. split; [done|].
  split.
  { unfold status_counts. rewrite <- list_fmap_compose. simpl.
    rewrite list_fmap_id. apply NoDup_remove_dups. }
  split; [apply status_counts_sum|]. split; [|done].
  intros k n (st & [= -> ->] & Hst)%list_elem_of_fmap. split; [|done].
  apply elem_of_remove_dups, list_elem_of_fmap in Hst as (s & -> & Hs).
  destruct (filter_nonempty (λ s', s_payment_status s' = s_payment_status s)
                            (students db) s Hs eq_refl) as (y & ys & ->).
  simpl. lia.
Qed.

End StatsFacts.

(** ** Lists and round trips *)

Lemma join_names_payment db p v : v ∈ join_names db p → pv_payment v = p.
Proof.
  unfold join_names. intros (sn & Hv & _)%list_elem_of_bind.
  by apply list_elem_of_fmap in Hv as (gn & -> & _).
Qed.

Lemma join_names_total db p : ∃ v, v ∈ join_names db p.
Proof.
  unfold join_names.
  assert (∃ sn, sn ∈ match filter (λ s, s_id s = p_student_id p) (students db) with
                     | [] => [None]
                     | ss => (λ s, Some (s_full_name s)) <$> ss
                     end) as (sn & Hsn).
  { destruct (filter _ (students db)); eexists; simpl; left. }
  assert (∃ gn, gn ∈ match filter (λ g, Some (g_id g) = p_group_id p) (groups db) with
                     | [] => [None]
                     | gs => (λ g, Some (g_name g)) <$> gs
                     end) as (gn & Hgn).
  { destruct (filter _ (groups db)); eexists; simpl; left. }
  exists (PaymentView p sn gn). apply list_elem_of_bind. exists sn. split; [|done].
  apply list_elem_of_fmap. by exists gn.
Qed.

Lemma join_names_student db p v :
  v ∈ join_names db p →
  (pv_student_name v = None ↔ ∀ s, s ∈ students db → s_id s ≠ p_student_id p).
Proof.
  unfold join_names. intros (sn & Hv & Hsn)%list_elem_of_bind.
  apply list_elem_of_fmap in Hv as (gn & -> & _). simpl.
  destruct (filter (λ s, s_id s = p_student_id p) (students db)) as [|s0 ss] eqn:E.
  - apply list_elem_of_singleton in Hsn as ->. split; [|done]. intros _ s Hs Heq.
    assert (s ∈ filter (λ s, s_id s = p_student_id p) (students db)) as Hin
      by (by apply list_elem_of_filter).
    rewrite E in Hin. by apply elem_of_nil in Hin.
  - apply list_elem_of_fmap in Hsn as (s & -> & _). split; [done|]. intros Hnone.
    assert (s0 ∈ filter (λ s, s_id s = p_student_id p) (students db)) as Hin
      by (rewrite E; left).
    apply list_elem_of_filter in Hin as [Heq Hs0]. by destruct (Hnone s0 Hs0).
Qed.

(** X20.  The payment list applies exactly the filters the query gives: an
    absent or empty parameter filters nothing, a student or group id the
    store rejects is answered 500, and otherwise the rows are the payments
    that satisfy every given filter, each listed, with no student name
    exactly when no student row carries the payment's student id. *)
Theorem payment_list_filters (q : body) (db : store) :
  ((int_filter (q !! "student_id") = None ∨ int_filter (q !! "group_id") = None) →
   get_payments q db = server_error)
  ∧ (∀ sid gid,
       int_filter (q !! "student_id") = Some sid →
       int_filter (q !! "group_id") = Some gid →
       status (get_payments q db) = 200%nat
       ∧ (∀ v, v ∈ rows_of (get_payments q db) →
               pv_payment v ∈ payments db
               ∧ payment_selected (or_null (q !! "month")) sid gid (pv_payment v)
               ∧ (pv_student_name v = None
                  ↔ ∀ s, s ∈ students db → s_id s ≠ p_student_id (pv_payment v)))
       ∧ (∀ p, p ∈ payments db →
               payment_selected (or_null (q !! "month")) sid gid p →
               ∃ v, v ∈ rows_of (get_payments q db) ∧ pv_payment v = p))
  ∧ (q !! "month" = None → q !! "student_id" = None → q !! "group_id" = None →
     ∀ p, p ∈ payments db → ∃ v, v ∈ rows_of (get_payments q db) ∧ pv_payment v = p).
Proof.
  assert (∀ sid gid,
            int_filter (q !! "student_id") = Some sid →
            int_filter (q !! "group_id") = Some gid →
            ∀ v, v ∈ rows_of (get_payments q db)
                 ↔ ∃ p, p ∈ payments db
                        ∧ payment_selected (or_null (q !! "month")) sid gid p
                        ∧ v ∈ join_names db p) as Hrows.
  { intros sid gid Hsid Hgid v. unfold get_payments, rows_of. rewrite Hsid, Hgid.
    cbn [json]. rewrite merge_sort_Permutation, list_elem_of_bind. split.
    - intros (p & Hv & [Hsel Hp]%list_elem_of_filter). by exists p.
    - intros (p & Hp & Hsel & Hv). exists p. split; [done|]. by apply list_elem_of_filter. }
  split; [|split].
  - unfold get_payments. intros [-> | ->]; [done|]. by destruct (int_filter _).
  - intros sid gid Hsid Hgid. split.
    { unfold get_payments. by rewrite Hsid, Hgid. }
    split.
    + intros v (p & Hp & Hsel & Hv)%(Hrows sid gid Hsid Hgid).
      rewrite (join_names_payment db p v Hv). split; [done|]. split; [done|].
      by apply join_names_student.
    + intros p Hp Hsel. destruct (join_names_total db p) as (v & Hv).
      exists v. split; [|by apply (join_names_payment db)].
      apply (Hrows sid gid Hsid Hgid). by exists p.
  - intros Hm Hs Hg p Hp. destruct (join_names_total db p) as (v & Hv).
    exists v. split; [|by apply (join_names_payment db)].
    apply (Hrows None None); [by rewrite Hs|by rewrite Hg|].
    exists p. split; [done|]. split; [|done]. by rewrite Hm.
Qed.


Section RoundTrips.
Context `{Validators}.


(** X22.  A student created under a fresh id in an existing group is found
    by that id, as the stored row together with the name and fee of the
    group. *)
Theorem student_created_is_found (c : clock) (b : body) (id : string) (db : store)
    (gid : Z) (g : group) :
  passes student_create_rules b →
  Text.int_in (field b "group_id") = Some gid →
  head (filter (λ g, g_id g = gid) (groups db)) = Some g →
  (∀ s, s ∈ students db → s_id s ≠ students_seq db) →
  Text.int_in id = Some (students_seq db) →
  ∃ s, (post_students c b db).1
       = Response 201 (Data (Some "Student created successfully") s)
       ∧ s_id s = students_seq db
       ∧ get_student id (post_students c b db).2
         = Response 200 (Data None (StudentView s (Some (g_name g)) (Some (g_monthly_fee g)))).
Proof.
  intros Hok Hgid Hg Hfresh Hid.
  rewrite (post_students_unfold c b db gid Hok Hgid).
  destruct (filter (λ g, g_id g = gid) (groups db)) as [|g0 gs] eqn:E; [done|].
  simpl in Hg. injection Hg as ->. cbn zeta. cbn [fst snd].
  eexists. split; [reflexivity|]. split; [done|].
  unfold get_student. rewrite Hid. cbn [students with_students].
  rewrite filter_app, (filter_none _ (students db) Hfresh).
  rewrite filter_cons_True by done. rewrite filter_nil. cbn [app].
  cbn [mbind list_bind]. rewrite app_nil_r.
  unfold join_group. cbn [s_group_id groups with_students].
  assert (filter (λ g', Some (g_id g') = Some gid) (groups db) = g :: gs) as ->.
  { rewrite <- E. apply list_filter_iff. intros g'. split; [by intros [= ->]|by intros ->]. }
  done.
Qed.

(** X23.  A group that has just been created accepts students: a valid
    student request that names the new id is answered 201 and stores the
    student in that group. *)
Theorem group_created_accepts_students (c c' : clock) (new_id : Z) (bg bs : body)
    (db : store) :
  passes group_rules bg →
  passes student_create_rules bs →
  Text.int_in (field bs "group_id") = Some new_id →
  let db1 := (post_groups c new_id bg db).2 in
  status (post_groups c new_id bg db).1 = 201%nat
  ∧ (∃ g, groups db1 = (groups db ++ [g])%list ∧ g_id g = new_id)
  ∧ ∃ s, (post_students c' bs db1).1
         = Response 201 (Data (Some "Student created successfully") s)
         ∧ s_group_id s = Some new_id
         ∧ students (post_students c' bs db1).2 = (students db ++ [s])%list.
Proof.
  intros Hokg Hoks Hgid. cbn zeta. unfold post_groups.
  rewrite (run_rules_passes _ _ Hokg). cbn [fst snd].
  split; [done|]. split; [by eexists|].
  rewrite (post_students_unfold c' bs _ new_id Hoks Hgid).
  cbn [groups with_groups]. rewrite filter_app, filter_cons_True by done.
  destruct (filter _ (groups db)); by eexists.
Qed.

End RoundTrips.

(** ** A group and its students *)

Lemma int_in_nonempty s n : Text.int_in s = Some n → s ≠ "".
Proof. by intros Hs ->. Qed.

Lemma int_filter_int_in s n : Text.int_in s = Some n → int_filter (Some s) = Some (Some n).
Proof.
  intros Hs. unfold int_filter, or_null.
  destruct s as [|a s]; [done|]. by rewrite Hs.
Qed.

Lemma remove_dups_NoDup `{EqDecision A} (l : list A) : NoDup l → remove_dups l = l.
Proof.
  induction 1 as [|x l Hx Hl IH]; [done|]. simpl.
  destruct (decide_rel elem_of x l); [done|]. by rewrite IH.
Qed.

Lemma elem_of_student_rows q db group_id v :
  int_filter (q !! "group_id") = Some group_id →
  v ∈ rows_of (get_students q db)
  ↔ ∃ s, s ∈ students db ∧ student_selected group_id s ∧ v ∈ join_group db s.
Proof.
  intros Hq. unfold get_students, rows_of. rewrite Hq. cbn [json].
  rewrite merge_sort_Permutation, list_elem_of_bind. split.
  - intros (s & Hv & [Hsel Hs]%list_elem_of_filter). by exists s.
  - intros (s & Hs & Hsel & Hv). exists s. split; [done|]. by apply list_elem_of_filter.
Qed.

(** X24.  The detail of a group and the student list filtered by the
    group show the same students: the detail holds the student rows that
    refer to the group, each of them is on the filtered list with the
    name of a group, and the filtered list holds no other student; the
    student count of the group list is at most the number of students in
    the detail, and equal to it when student ids are unique.  When no
    group row carries the id the detail is answered 404, whatever
    students refer to it. *)
Theorem group_detail_matches_student_list (id : string) (n : Z) (db : store) :
  Text.int_in id = Some n →
  (∀ g, head (filter (λ g, g_id g = n) (groups db)) = Some g →
     ∃ members,
       get_group id db = Response 200 (Data None (g, members))
       ∧ members ≡ₚ filter (λ s, s_group_id s = Some n) (students db)
       ∧ (∀ v, v ∈ rows_of (get_students {[ "group_id" := id ]} db) →
               sv_student v ∈ members ∧ sv_group_name v ≠ None)
       ∧ (∀ s, s ∈ members →
               ∃ v, v ∈ rows_of (get_students {[ "group_id" := id ]} db)
                    ∧ sv_student v = s)
       ∧ (TopGroups.count_students db n <= length members)%nat
       ∧ (NoDup (s_id <$> students db) →
          TopGroups.count_students db n = length members))
  ∧ ((∀ g, g ∈ groups db → g_id g ≠ n) →
     get_group id db = not_found "Group").
Proof.
  intros Hid. split.
  - intros g Hg. unfold get_group. rewrite Hid.
    destruct (filter (λ g, g_id g = n) (groups db)) as [|g0 gs] eqn:E; [done|].
    injection Hg as ->. eexists. split; [reflexivity|].
    assert (g ∈ groups db ∧ g_id g = n) as [Hgin Hgid].
    { assert (g ∈ filter (λ g, g_id g = n) (groups db)) as Hin by (rewrite E; left).
      apply list_elem_of_filter in Hin. tauto. }
    pose proof (int_filter_int_in id n Hid) as Hfilter.
    split; [apply merge_sort_Permutation|]. split; [|split; [|split]].
    + intros v Hv.
      apply (elem_of_student_rows _ db (Some n)) in Hv as (s & Hs & Hsel & Hv);
        [|by rewrite lookup_singleton_eq].
      rewrite (join_group_student db s v Hv). split.
      * rewrite merge_sort_Permutation. by apply list_elem_of_filter.
      * intros Hnone. destruct (join_group_name db s v Hv) as [Hno _].
        apply (Hno Hnone g Hgin). simpl in Hsel. by rewrite Hsel, Hgid.
    + intros s Hs. rewrite merge_sort_Permutation in Hs.
      apply list_elem_of_filter in Hs as [Hsel Hs].
      destruct (join_group_total db s) as (v & Hv). exists v.
      split; [|by apply (join_group_student db)].
      apply (elem_of_student_rows _ db (Some n)); [by rewrite lookup_singleton_eq|].
      by exists s.
    + rewrite merge_sort_Permutation. unfold TopGroups.count_students, TopGroups.joined.
      rewrite <- (length_fmap s_id (filter _ (students db))).
      apply submseteq_length, NoDup_submseteq; [apply NoDup_remove_dups|].
      intros x. by rewrite elem_of_remove_dups.
    + intros Hnodup. rewrite merge_sort_Permutation.
      unfold TopGroups.count_students, TopGroups.joined.
      rewrite remove_dups_NoDup; [apply length_fmap|].
      eapply sublist_NoDup; [exact Hnodup|]. apply fmap_sublist, sublist_filter.
  - intros Hnone. unfold get_group. rewrite Hid.
    by rewrite (filter_none (λ g, g_id g = n) (groups db) Hnone).
Qed.

(** ** Worked instances of the further properties *)

Section FurtherExamples.
Import Demo DemoAuth TopGroups.

(** A payment for student 1, then a move of the student to group 2. *)
Lemma payment_group_is_copied_once_witness :
  let b : body :=
    {[ "student_id" := "1"; "amount" := "300000"; "payment_month" := "2023-11";
       "payment_date" := "2023-11-20"; "payment_method" := "cash" ]} in
  let b' : body :=
    {[ "full_name" := "Ali Valiev"; "group_id" := "2"; "join_date" := "2024-01-10" ]} in
  passes payment_rules b
  ∧ Text.int_in (field b "student_id") = Some 1
  ∧ head (filter (λ s, s_id s = 1) (students db0)) = Some s1
  ∧ ∃ pay, payments (post_payments now b db0).2 = (payments db0 ++ [pay])%list
           ∧ p_group_id pay = s_group_id s1
           ∧ payments (put_students now "1" b' (post_payments now b db0).2).2
             = payments (post_payments now b db0).2.
Proof.
  cbv zeta. split; [by vm_compute|]. split; [by vm_compute|]. split; [by vm_compute|].
  apply (payment_group_is_copied_once now now _ _ "1" db0 1 s1); by vm_compute.
Defined.

(** Student 1 has no payment on record: after the round trip the student
    is unpaid again. *)
Lemma post_then_delete_payment_witness :
  let b : body :=
    {[ "student_id" := "1"; "amount" := "300000"; "payment_month" := "2023-11";
       "payment_date" := "2023-11-20"; "payment_method" := "cash" ]} in
  let db2 := (delete_payments now "4" (post_payments now b db0).2).2 in
  passes payment_rules b
  ∧ Text.int_in "4" = Some (payments_seq db0)
  ∧ payments db2 = payments db0
  ∧ student_core <$> students db2 = student_core <$> students db0
  ∧ ∀ s, s ∈ students db2 → s_id s = 1 →
         (s_payment_status s = "paid"
          ↔ ∃ p, p ∈ payments db0 ∧ p_student_id p = 1
                 ∧ p_payment_month p = Text.slice0 7 (toISOString now)).
Proof.
  cbv zeta. split; [by vm_compute|]. split; [by vm_compute|].
  apply (post_then_delete_payment now now _ "4" db0 1).
  - by vm_compute.
  - by vm_compute.
  - exists s1. split; [|done]. apply list_elem_of_In. vm_compute. tauto.
  - intros p Hp. apply list_elem_of_In in Hp. vm_compute in Hp.
    destruct Hp as [<-|[<-|[<-|[]]]]; by vm_compute.
  - by vm_compute.
Defined.

Lemma paid_student_not_on_unpaid_list_witness :
  let b : body :=
    {[ "student_id" := "1"; "amount" := "300000"; "payment_month" := "2023-11";
       "payment_date" := "2023-11-20"; "payment_method" := "cash" ]} in
  passes payment_rules b
  ∧ (∃ v, v ∈ rows_of (get_unpaid_students db0) ∧ s_id (sv_student v) = 1)
  ∧ ∀ v, v ∈ rows_of (get_unpaid_students (post_payments now b db0).2) →
         s_id (sv_student v) ≠ 1.
Proof.
  cbv zeta. split; [by vm_compute|]. split.
  { exists (StudentView s1 (Some "Algebra") (Some "300000")). split; [|done].
    apply list_elem_of_In. vm_compute. tauto. }
  apply (paid_student_not_on_unpaid_list now _ db0 1).
  - by vm_compute.
  - by vm_compute.
  - exists s1. split; [|done]. apply list_elem_of_In. vm_compute. tauto.
Defined.

(** Id 1 names an expense, a student and a group of the demo store. *)
Lemma hard_delete_twice_witness :
  Text.int_in "1" = Some 1
  ∧ (let first := delete_expenses "1" db0 in
     first.1 = Response 200 (Message true "Expense deleted successfully")
     ∧ expenses first.2 = filter (λ e, e_id e ≠ 1) (expenses db0)
     ∧ delete_expenses "1" first.2
       = (Response 404 (Message false "Expense not found"), first.2))
  ∧ (let first := delete_students "1" db0 in
     first.1 = Response 200 (Message true "Student deleted successfully")
     ∧ students first.2 = filter (λ s, s_id s ≠ 1) (students db0)
     ∧ delete_students "1" first.2
       = (Response 404 (Message false "Student not found"), first.2))
  ∧ (let first := delete_groups "1" db0 in
     first.1 = Response 200 (Message true "Group deleted successfully")
     ∧ groups first.2 = filter (λ g, g_id g ≠ 1) (groups db0)
     ∧ delete_groups "1" first.2
       = (Response 404 (Message false "Group not found"), first.2)).
Proof.
  split; [done|].
  destruct (hard_delete_twice "1" 1 db0 eq_refl) as (He & Hs & Hg).
  split; [|split].
  - apply He. exists e1. split; [|done]. apply list_elem_of_In. vm_compute. tauto.
  - apply Hs. exists s1. split; [|done]. apply list_elem_of_In. vm_compute. tauto.
  - apply Hg. exists g1. split; [|done]. apply list_elem_of_In. vm_compute. tauto.
Defined.


Lemma login_routers_agree_witness :
  let b : body := {[ "username" := "root"; "password" := "secret" ]} in
  trim (field b "username") = field b "username"
  ∧ status (post_login b db0) = 200%nat
  ∧ status (post_login b db0) = status (pool_post_login b db0).
Proof.
  cbv zeta. split; [by vm_compute|]. split; [by vm_compute|].
  apply (login_routers_agree _ db0). by vm_compute.
Defined.

(** March 2024 of the demo store: two payments and one expense. *)
Lemma monthly_chart_reports_sums_witness :
  let q : body := {[ "year" := "2024" ]} in
  let r := ChartRow "2024-03" 600000 1000000 (-400000) in
  Text.all_digits (or_default (q !! "year") (getFullYear now)) = true
  ∧ r ∈ rows_of (get_monthly_chart now q db0)
  ∧ income r
    = parseFloat (sql_sum (p_amount <$> filter (λ p, p_payment_month p = month r)
                                               (payments db0)))
  ∧ expenses_total r
    = parseFloat (sql_sum (e_amount <$> filter (λ e, e_expense_month e = month r)
                                               (expenses db0))).
Proof.
  cbv zeta.
  assert (ChartRow "2024-03" 600000 1000000 (-400000)
          ∈ rows_of (get_monthly_chart now ({[ "year" := "2024" ]} : body) db0)) as Hr.
  { apply (list_elem_of_lookup_2 _ 2). reflexivity. }
  assert (Text.all_digits (or_default (({[ "year" := "2024" ]} : body) !! "year")
                                      (getFullYear now)) = true) as Hyear
    by reflexivity.
  split; [exact Hyear|]. split; [exact Hr|].
  destruct (monthly_chart_reports_sums now ({[ "year" := "2024" ]} : body) db0 _
              Hyear Hr) as [Hincome Hexpenses].
  split.
  - apply Hincome. exists p1. split; [|reflexivity]. apply list_elem_of_In. simpl. tauto.
  - apply Hexpenses. exists e1. split; [|reflexivity]. apply list_elem_of_In. simpl. tauto.
Defined.

Lemma monthly_chart_agrees_with_stats_witness :
  let q : body := {[ "year" := "2024" ]} in
  let r := ChartRow "2024-03" 600000 1000000 (-400000) in
  r ∈ rows_of (get_monthly_chart now q db0)
  ∧ ∃ st, get_stats now {[ "month" := month r ]} db0 = Response 200 (Data None st)
          ∧ stats_month st = month r
          ∧ totalIncome st = income r
          ∧ totalExpenses st = expenses_total r
          ∧ netProfit st = profit r.
Proof.
  cbv zeta.
  assert (ChartRow "2024-03" 600000 1000000 (-400000)
          ∈ rows_of (get_monthly_chart now ({[ "year" := "2024" ]} : body) db0)) as Hr.
  { apply (list_elem_of_lookup_2 _ 2). reflexivity. }
  assert (Text.all_digits (or_default (({[ "year" := "2024" ]} : body) !! "year")
                                      (getFullYear now)) = true) as Hyear
    by reflexivity.
  split; [exact Hr|].
  apply (monthly_chart_agrees_with_stats now now ({[ "year" := "2024" ]} : body) db0 _
           Hyear Hr).
  - exists p1. split; [|reflexivity]. apply list_elem_of_In. simpl. tauto.
  - exists e1. split; [|reflexivity]. apply list_elem_of_In. simpl. tauto.
Defined.

Lemma student_created_is_found_witness :
  let b : body :=
    {[ "group_id" := "2"; "full_name" := " Sami Umarov "; "join_date" := "2024-03-01" ]} in
  passes student_create_rules b
  ∧ Text.int_in "3" = Some (students_seq db0)
  ∧ ∃ s, (post_students now b db0).1
         = Response 201 (Data (Some "Student created successfully") s)
         ∧ s_id s = students_seq db0
         ∧ get_student "3" (post_students now b db0).2
           = Response 200 (Data None (StudentView s (Some "Physics") (Some "250000"))).
Proof.
  cbv zeta. split; [by vm_compute|]. split; [by vm_compute|].
  apply (student_created_is_found now _ "3" db0 2 g2).
  - by vm_compute.
  - by vm_compute.
  - by vm_compute.
  - intros s Hs. apply list_elem_of_In in Hs. vm_compute in Hs.
    destruct Hs as [<-|[<-|[]]]; by vm_compute.
  - by vm_compute.
Defined.

Lemma group_created_accepts_students_witness :
  let bg : body := {[ "name" := "Chemistry"; "monthly_fee" := "200000" ]} in
  let bs : body :=
    {[ "group_id" := "3"; "full_name" := "Sami Umarov"; "join_date" := "2024-03-01" ]} in
  let db1 := (post_groups now 3 bg db0).2 in
  passes group_rules bg
  ∧ passes student_create_rules bs
  ∧ status (post_groups now 3 bg db0).1 = 201%nat
  ∧ (∃ g, groups db1 = (groups db0 ++ [g])%list ∧ g_id g = 3)
  ∧ ∃ s, (post_students now bs db1).1
         = Response 201 (Data (Some "Student created successfully") s)
         ∧ s_group_id s = Some 3
         ∧ students (post_students now bs db1).2 = (students db0 ++ [s])%list.
Proof.
  cbv zeta. split; [by vm_compute|]. split; [by vm_compute|].
  apply (group_created_accepts_students now now 3 _ _ db0); by vm_compute.
Defined.

(** Group 1 of the demo store and its two students. *)
Lemma group_detail_matches_student_list_witness :
  Text.int_in "1" = Some 1
  ∧ NoDup (s_id <$> students db0)
  ∧ ∃ members,
      get_group "1" db0 = Response 200 (Data None (g1, members))
      ∧ members ≡ₚ filter (λ s, s_group_id s = Some 1) (students db0)
      ∧ (∀ v, v ∈ rows_of (get_students {[ "group_id" := "1" ]} db0) →
              sv_student v ∈ members ∧ sv_group_name v ≠ None)
      ∧ (∀ s, s ∈ members →
              ∃ v, v ∈ rows_of (get_students {[ "group_id" := "1" ]} db0)
                   ∧ sv_student v = s)
      ∧ (count_students db0 1 <= length members)%nat
      ∧ (NoDup (s_id <$> students db0) → count_students db0 1 = length members).
Proof.
  split; [done|]. split.
  { apply NoDup_ListNoDup. vm_compute. repeat constructor; simpl; intuition discriminate. }
  destruct (group_detail_matches_student_list "1" 1 db0 eq_refl) as [Hfound _].
  apply (Hfound g1). by vm_compute.
Defined.

(** No student carries id 9; an id of twenty digits passes [isInt()] and
    is rejected by the store; an empty request fails validation. *)
Lemma post_payments_rejected_is_noop_witness :
  let b : body :=
    {[ "student_id" := "9"; "amount" := "300000"; "payment_month" := "2023-11";
       "payment_date" := "2023-11-20"; "payment_method" := "cash" ]} in
  let huge : body := <["student_id" := "99999999999999999999"]> b in
  passes payment_rules b
  ∧ passes payment_rules huge
  ∧ post_payments now b db0 = (Response 404 (Message false "Student not found"), db0)
  ∧ post_payments now huge db0 = (Response 500 (Message false "Server error"), db0)
  ∧ status (post_payments now ∅ db0).1 = 400%nat
  ∧ (post_payments now ∅ db0).2 = db0.
Proof.
  cbv zeta.
  set (b := ({[ "student_id" := "9"; "amount" := "300000"; "payment_month" := "2023-11";
                "payment_date" := "2023-11-20"; "payment_method" := "cash" ]} : body)).
  set (huge := (<["student_id" := "99999999999999999999"]> b : body)).
  assert (passes payment_rules b) as Hok by (by vm_compute).
  assert (passes payment_rules huge) as Hhuge by (by vm_compute).
  split; [exact Hok|]. split; [exact Hhuge|]. split; [|split].
  - destruct (post_payments_rejected_is_noop now b db0) as (_ & _ & Hmissing).
    apply (Hmissing 9 Hok); [by vm_compute|].
    intros s Hs. apply list_elem_of_In in Hs. vm_compute in Hs.
    destruct Hs as [<-|[<-|[]]]; by vm_compute.
  - destruct (post_payments_rejected_is_noop now huge db0) as (_ & Hrejected & _).
    apply (Hrejected Hhuge). by vm_compute.
  - destruct (post_payments_rejected_is_noop now ∅ db0) as (Hinvalid & _ & _).
    rewrite Hinvalid by (by vm_compute). done.
Defined.


(** The username root is taken in the demo store. *)
Lemma register_keeps_admins_distinct_witness :
  let b : body :=
    {[ "username" := "root"; "password" := "secret1"; "email" := "other@example.org" ]} in
  passes register_rules b
  ∧ post_register "10" 2 b db0
    = (Response 400 (Message false "Username or email already exists"), db0)
  ∧ NoDup (a_username <$> admins (post_register "10" 2 b db0).2).
Proof.
  cbv zeta.
  set (b := ({[ "username" := "root"; "password" := "secret1";
                "email" := "other@example.org" ]} : body)).
  assert (passes register_rules b) as Hok by (by vm_compute).
  destruct (register_keeps_admins_distinct "10" 2 b db0) as (Htaken & Hnames & _).
  split; [exact Hok|]. split.
  - apply (Htaken Hok). exists root. split; [|left; by vm_compute].
    apply list_elem_of_In. vm_compute. tauto.
  - apply Hnames. apply NoDup_ListNoDup. vm_compute.
    repeat constructor; simpl; intuition discriminate.
Defined.

(** The payments of student 2 for March 2024; an id that is no integer. *)
Lemma payment_list_filters_witness :
  let q : body := {[ "student_id" := "2"; "month" := "2024-03"; "group_id" := "" ]} in
  let bad : body := {[ "student_id" := "two" ]} in
  int_filter (q !! "student_id") = Some (Some 2)
  ∧ int_filter (q !! "group_id") = Some None
  ∧ get_payments bad db0 = server_error
  ∧ status (get_payments q db0) = 200%nat
  ∧ (∃ v, v ∈ rows_of (get_payments q db0) ∧ pv_payment v = p1)
  ∧ (∀ v, v ∈ rows_of (get_payments q db0) → pv_payment v ≠ p3).
Proof.
  cbv zeta.
  set (q := ({[ "student_id" := "2"; "month" := "2024-03"; "group_id" := "" ]} : body)).
  assert (int_filter (q !! "student_id") = Some (Some 2)) as Hsid by (by vm_compute).
  assert (int_filter (q !! "group_id") = Some None) as Hgid by (by vm_compute).
  split; [exact Hsid|]. split; [exact Hgid|]. split.
  - destruct (payment_list_filters ({[ "student_id" := "two" ]} : body) db0) as (Hbad & _).
    apply Hbad. left. by vm_compute.
  - destruct (payment_list_filters q db0) as (_ & Hrows & _).
    destruct (Hrows (Some 2) None Hsid Hgid) as (Hstatus & Hsound & Hcomplete).
    split; [exact Hstatus|]. split.
    + apply Hcomplete; [apply list_elem_of_In; vm_compute; tauto|by vm_compute].
    + intros v Hv Heq. destruct (Hsound v Hv) as (_ & [Hmonth _] & _).
      rewrite Heq in Hmonth. by vm_compute in Hmonth.
Defined.


End FurtherExamples.
